(** * app.py: OCR and visual-element extraction pipeline

    A shallow embedding of [src/app.py].  The script is orchestration code:
    every substantive operation is a call into [pytesseract], [cv2], [os] or
    [streamlit].  Those collaborators are therefore kept abstract, as
    interfaces ([Pytesseract], [Cv2], [Os], [Streamlit]) whose operations may
    raise, and the
    five Python functions are translated line by line into a state-and-
    exception monad over the world they act on (file system and UI log). *)

From Stdlib Require Import Ascii QArith.
From stdpp Require Import base numbers list strings pretty.

Local Open Scope Z_scope.

(** ** Python values *)

(** Exceptions.  [extract_text] tells [pytesseract.TesseractError] apart from
    every other subclass of [Exception]; nothing else in the script looks at
    the class.  The payload is [str(e)].  (Only [Exception] subclasses are
    modelled: [KeyboardInterrupt] and friends are not failures of a stage.) *)
Inductive exn : Type :=
  | TesseractError (msg : string)
  | Exception (msg : string).

Definition exn_str (e : exn) : string :=
  match e with TesseractError msg | Exception msg => msg end.

(** The result of evaluating a Python expression. *)
Inductive outcome (A : Type) : Type :=
  | Return (a : A)
  | Raise (e : exn).
Arguments Return {A} a.
Arguments Raise {A} e.

(** The double-quote character, for the f-string of [generate_html]. *)
Definition dquote : string := String "034"%char EmptyString.

(** ** numpy arrays and OpenCV data *)

(** A two-dimensional array, row-major: [shape = (rows, cols)]. *)
Definition ndarray (A : Type) : Type := list (list A).

(** A BGR pixel, as [cv2.imread] decodes it. *)
Definition Pixel : Type := (Z * Z * Z)%type.

(** A contour: the ordered boundary points [(x, y)] of one region. *)
Definition Contour : Type := list (Z * Z).

(** [(x, y, w, h)], as [cv2.boundingRect] returns it. *)
Definition Rect : Type := (Z * Z * Z * Z)%type.

(** The hierarchy array returned next to the contours (ignored by the code). *)
Definition Hierarchy : Type := list (Z * Z * Z * Z).

Definition height {A} (m : ndarray A) : Z := Z.of_nat (length m).
Definition width {A} (m : ndarray A) : Z := Z.of_nat (length (hd [] m)).

(** Python's normalisation of one slice bound against a length [n]
    ([slice.indices] with step 1): negative bounds count from the end, and
    everything is clamped to [0 .. n]. *)
Definition slice_index (n i : Z) : Z :=
  if i <? 0 then Z.max (i + n) 0 else Z.min i n.

(** [l[start:stop]] *)
Definition py_slice {A} (l : list A) (start stop : Z) : list A :=
  let n := Z.of_nat (length l) in
  let a := slice_index n start in
  let b := slice_index n stop in
  take (Z.to_nat (b - a)) (drop (Z.to_nat a) l).

(** [m[r0:r1, c0:c1]] *)
Definition ndarray_slice {A} (m : ndarray A) (r0 r1 c0 c1 : Z) : ndarray A :=
  (λ row, py_slice row c0 c1) <$> py_slice m r0 r1.

(** OpenCV's integer constants used by the script. *)
Module cv2.
Definition COLOR_BGR2GRAY : Z := 6.
Definition THRESH_BINARY_INV : Z := 1.
Definition THRESH_OTSU : Z := 8.
Definition RETR_EXTERNAL : Z := 0.
Definition CHAIN_APPROX_SIMPLE : Z := 2.
End cv2.

(** ** The world: file system and streamlit output *)

(** What the script sends to streamlit inside the processing block. *)
Inductive UiEvent : Type :=
  | UiError (msg : string)
  | UiSubheader (s : string)
  | UiWrite (s : string)
  | UiCode (body language : string)
  | UiImage (path : string)
  | UiDownloadButton (label data file_name mime : string).

Record World (FS : Type) : Type := mkWorld {
  fs : FS;                 (* the file system, owned by the platform *)
  ui : list UiEvent        (* streamlit calls so far, oldest first *)
}.
Arguments mkWorld {FS} fs ui.
Arguments fs {FS} w.
Arguments ui {FS} w.

(** ** The monad of Python code: state passing with exceptions

    Side effects performed before an exception is raised persist. *)
Definition M (FS A : Type) : Type := World FS → outcome A * World FS.

Global Instance M_ret {FS} : MRet (M FS) := λ A a w, (Return a, w).

Global Instance M_bind {FS} : MBind (M FS) := λ A B k m w,
  match m w with
  | (Return a, w') => k a w'
  | (Raise e, w') => (Raise e, w')
  end.

(** [try: body  except Exception as e: handler e] *)
Definition try_except {FS A} (body : M FS A) (handler : exn → M FS A) : M FS A :=
  λ w, match body w with
       | (Return a, w') => (Return a, w')
       | (Raise e, w') => handler e w'
       end.

(** A call that touches nothing (a pure library function). *)
Definition call {FS A} (r : outcome A) : M FS A := λ w, (r, w).

(** A call that reads the file system. *)
Definition call_read {FS A} (f : FS → outcome A) : M FS A := λ w, (f (fs w), w).

(** A call that reads and writes the file system. *)
Definition call_fs {FS A} (f : FS → outcome A * FS) : M FS A :=
  λ w, let '(r, fs') := f (fs w) in (r, mkWorld fs' (ui w)).

(** A streamlit call that only draws: recorded, never failing. *)
Definition st_emit {FS} (ev : UiEvent) : M FS unit :=
  λ w, (Return tt, mkWorld (fs w) (ui w ++ [ev])).

Definition st_error {FS} (msg : string) : M FS unit := st_emit (UiError msg).
Definition st_subheader {FS} (s : string) : M FS unit := st_emit (UiSubheader s).
Definition st_write {FS} (s : string) : M FS unit := st_emit (UiWrite s).
Definition st_code {FS} (body language : string) : M FS unit :=
  st_emit (UiCode body language).
Definition st_download_button {FS} (label data file_name mime : string) : M FS unit :=
  st_emit (UiDownloadButton label data file_name mime).

(** [for x in xs: body x] *)
Fixpoint for_each {FS A} (xs : list A) (body : A → M FS unit) : M FS unit :=
  match xs with
  | [] => mret tt
  | x :: rest => body x ≫= λ _, for_each rest body
  end.

(** ** The external collaborators *)

Class Pytesseract (PilImage FS : Type) : Type := {
  image_to_string : PilImage → FS → outcome string * FS
}.

Class Cv2 (FS : Type) : Type := {
  (* returns [None] for a file it cannot decode *)
  cv2_imread : string → FS → outcome (option (ndarray Pixel));
  cv2_cvtColor : option (ndarray Pixel) → Z → outcome (ndarray Z);
  cv2_threshold : ndarray Z → Z → Z → Z → outcome (Q * ndarray Z);
  cv2_findContours : ndarray Z → Z → Z → outcome (list Contour * Hierarchy);
  cv2_contourArea : Contour → outcome Q;
  cv2_boundingRect : Contour → outcome Rect;
  (* the boolean tells whether the file was written; the script ignores it *)
  cv2_imwrite : string → ndarray Pixel → FS → outcome bool * FS
}.

Class Os (FS : Type) : Type := {
  os_path_exists : string → FS → bool;
  os_makedirs : string → FS → outcome unit * FS;
  os_path_join : string → string → string
}.

(** [st.image] given a path opens the file it names, and raises when it
    cannot. *)
Class Streamlit (FS : Type) : Type := {
  streamlit_open_image : string → FS → outcome unit
}.

(** [st.image(path, use_column_width=True)]: the file is opened first; the
    picture is on the page only if that went well. *)
Definition st_image {FS} {st : Streamlit FS} (path : string) : M FS unit :=
  call_read (streamlit_open_image path);;
  st_emit (UiImage path).

(** ** The program *)

Section app.
Context {PilImage FS : Type}.
Context {tess : Pytesseract PilImage FS} {cv : Cv2 FS} {os : Os FS}.
Context {st : Streamlit FS}.

#[local] Abbreviation M := (M FS).

(** The sentinel of [extract_text] (lines 19 and 22). *)
Definition extraction_failed : string :=
  "Text extraction failed. Please try again.".

(** Lines 13-22. *)
Definition extract_text (image : PilImage) : M string :=
  try_except
    (text ← call_fs (image_to_string image);
     mret text)
    (λ e,
      match e with
      | TesseractError _ =>
          st_error ("An error occurred while extracting text: " +:+ exn_str e);;
          mret extraction_failed
      | Exception _ =>
          st_error ("An unexpected error occurred while extracting text: "
                    +:+ exn_str e);;
          mret extraction_failed
      end).

(** [area > 1000] on the number [cv2.contourArea] returned. *)
Definition area_gt_1000 (area : Q) : bool := negb (Qle_bool area 1000).

(** Lines 33-37: the filtering loop, with its accumulator. *)
Fixpoint filter_loop (contours filtered_contours : list Contour)
  : M (list Contour) :=
  match contours with
  | [] => mret filtered_contours
  | contour :: rest =>
      area ← call (cv2_contourArea contour);
      if area_gt_1000 area
      then filter_loop rest (filtered_contours ++ [contour])
      else filter_loop rest filtered_contours
  end.

(** Lines 27-39: the body of the [try]. *)
Definition segment_body (image_path : string)
  : M (option (ndarray Pixel) * list Contour) :=
  image ← call_read (cv2_imread image_path);
  gray ← call (cv2_cvtColor image cv2.COLOR_BGR2GRAY);
  '(_, binary) ← call (cv2_threshold gray 128 255
                        (cv2.THRESH_BINARY_INV + cv2.THRESH_OTSU));
  '(contours, _) ← call (cv2_findContours binary cv2.RETR_EXTERNAL
                           cv2.CHAIN_APPROX_SIMPLE);
  filtered_contours ← filter_loop contours [];
  mret (image, filtered_contours).

(** Lines 25-42. *)
Definition segment_visual_elements (image_path : string)
  : M (option (ndarray Pixel) * list Contour) :=
  try_except (segment_body image_path)
    (λ e,
      st_error ("An error occurred while segmenting visual elements: "
                +:+ exn_str e);;
      mret (None, [])).

(** [image[y:y+h, x:x+w]]: subscripting [None] is a [TypeError]. *)
Definition crop (image : option (ndarray Pixel)) (x y w h : Z)
  : M (ndarray Pixel) :=
  match image with
  | None => call (Raise (Exception "'NoneType' object is not subscriptable"))
  | Some arr => mret (ndarray_slice arr y (y + h) x (x + w))
  end.

(** [f'element_{i}.png'] *)
Definition element_name (i : nat) : string :=
  "element_" +:+ pretty i +:+ ".png".

(** Lines 51-54: one turn of the loop, for the contour at index [i]; it
    evaluates to [element_path]. *)
Definition save_one (image : option (ndarray Pixel)) (output_dir : string)
    (i : nat) (contour : Contour) : M string :=
  '(x, y, w, h) ← call (cv2_boundingRect contour);
  visual_element ← crop image x y w h;
  let element_path := os_path_join output_dir (element_name i) in
  _ ← call_fs (cv2_imwrite element_path visual_element);
  mret element_path.

(** Lines 50-55: the [enumerate] loop; [i] is the running index and
    [element_paths] the list built so far. *)
Fixpoint save_loop (image : option (ndarray Pixel)) (output_dir : string)
    (i : nat) (contours : list Contour) (element_paths : list string)
  : M (list string) :=
  match contours with
  | [] => mret element_paths
  | contour :: rest =>
      element_path ← save_one image output_dir i contour;
      save_loop image output_dir (S i) rest (element_paths ++ [element_path])
  end.

(** Lines 47-48. *)
Definition ensure_dir (output_dir : string) : M unit :=
  exists_ ← call_read (λ fs, Return (os_path_exists output_dir fs));
  if negb exists_ then call_fs (os_makedirs output_dir) else mret tt.

(** Lines 47-56: the body of the [try]. *)
Definition save_body (image : option (ndarray Pixel)) (contours : list Contour)
    (output_dir : string) : M (list string) :=
  ensure_dir output_dir;;
  save_loop image output_dir 0 contours [].

(** Lines 45-59. *)
Definition save_visual_elements (image : option (ndarray Pixel))
    (contours : list Contour) (output_dir : string) : M (list string) :=
  try_except (save_body image contours output_dir)
    (λ e,
      st_error ("An error occurred while saving visual elements: "
                +:+ exn_str e);;
      mret []).

(** [f'<img src="{path}" />'] *)
Definition img_tag (path : string) : string :=
  "<img src=" +:+ dquote +:+ path +:+ dquote +:+ " />".

(** Lines 62-68.  The local [html_content] is threaded through the loop. *)
Definition generate_html (text : string) (element_paths : list string)
  : M string :=
  let html_content := "<html><body>" in
  let html_content := html_content +:+ ("<p>" +:+ text +:+ "</p>") in
  let html_content :=
    fold_left (λ html_content path, html_content +:+ img_tag path)
              element_paths html_content in
  let html_content := html_content +:+ "</body></html>" in
  mret html_content.

(** Lines 98-116 of [main]: the processing block run on an uploaded image.
    It evaluates to the [html_content] handed to the download button. *)
Definition main_process (image : PilImage) (image_path : string) : M string :=
  text ← extract_text image;
  st_subheader "Extracted Text";;
  st_write text;;
  st_code text "text";;
  '(image_cv2, contours) ← segment_visual_elements image_path;
  element_paths ← save_visual_elements image_cv2 contours "output_elements";
  st_subheader "Visual Elements";;
  for_each element_paths st_image;;
  html_content ← generate_html text element_paths;
  st_download_button "Download HTML" html_content "output.html" "text/html";;
  mret html_content.

End app.

(** ** Reference points for the claims *)

(** The world after lines 100-104 have shown the extracted text. *)
Definition text_shown {FS} (text : string) (w : World FS) : World FS :=
  mkWorld (fs w)
    (ui w ++ [UiSubheader "Extracted Text"; UiWrite text; UiCode text "text"]).

(** The world after line 111 has put the heading of the elements. *)
Definition elements_heading {FS} (w : World FS) : World FS :=
  mkWorld (fs w) (ui w ++ [UiSubheader "Visual Elements"]).

(** One [<img>] tag per path, in order, nothing in between. *)
Fixpoint img_tags (element_paths : list string) : string :=
  match element_paths with
  | [] => EmptyString
  | path :: rest => img_tag path +:+ img_tags rest
  end.

(** The document [generate_html] is specified to produce, in closed form:
    the opening tags, one paragraph holding [text] as it is, one [<img>] tag
    per path in order, the closing tags. *)
Definition html_doc (text : string) (element_paths : list string) : string :=
  "<html><body>" +:+ "<p>" +:+ text +:+ "</p>"
  +:+ img_tags element_paths +:+ "</body></html>".

(** The path list materialization is specified to return when nothing fails:
    [output_dir/element_<i>.png] for the indices [first, first + 1, ...]. *)
Definition element_paths_from {FS} {os : Os FS} (output_dir : string) (first count : nat)
  : list string :=
  (λ i, os_path_join output_dir (element_name i)) <$> seq first count.

(** The failure policy as the specification words it: when a step of the loop
    fails, the paths whose crops were written before the failure.  This follows
    [save_loop] step by step and stops, keeping the list built so far, where
    [save_loop] raises. *)
Fixpoint written_before_failure {FS} {cv : Cv2 FS} {os : Os FS}
    (image : option (ndarray Pixel)) (output_dir : string) (i : nat)
    (contours : list Contour) (element_paths : list string) (w : World FS)
  : list string :=
  match contours with
  | [] => element_paths
  | contour :: rest =>
      match save_one image output_dir i contour w with
      | (Return element_path, w') =>
          written_before_failure image output_dir (S i) rest
            (element_paths ++ [element_path]) w'
      | (Raise _, _) => element_paths
      end
  end.

(** What the specification has materialization return: the directory is made
    if absent, then the crops are written in order, and at the first failure
    the paths written until then are the result (none when the directory
    could not be made). *)
Definition spec_materialize {FS} {cv : Cv2 FS} {os : Os FS}
    (image : option (ndarray Pixel)) (contours : list Contour)
    (output_dir : string) (w : World FS) : list string :=
  match ensure_dir output_dir w with
  | (Return _, w') => written_before_failure image output_dir 0 contours [] w'
  | (Raise _, _) => []
  end.

(** *** What OpenCV promises about contours *)

(** Modelled from the spec: [cv2.boundingRect] is OpenCV's and not under
    [src/]; the specification (4.3) describes its result as the minimal
    axis-aligned bounding rectangle of the contour.  On the pixel grid that is
    the rectangle [x <= px < x + w], [y <= py < y + h] spanned by the extreme
    coordinates of the points.  An empty point set gets the empty rectangle. *)
Definition bounding_rect (c : Contour) : Rect :=
  match c with
  | [] => (0, 0, 0, 0)
  | (px, py) :: rest =>
      let xmin := foldr Z.min px (fst <$> rest) in
      let xmax := foldr Z.max px (fst <$> rest) in
      let ymin := foldr Z.min py (snd <$> rest) in
      let ymax := foldr Z.max py (snd <$> rest) in
      (xmin, ymin, xmax - xmin + 1, ymax - ymin + 1)
  end.

(** A contour lies inside an image of the given size. *)
Definition contour_inside (w h : Z) (c : Contour) : Prop :=
  c ≠ [] ∧ ∀ px py, (px, py) ∈ c → 0 ≤ px < w ∧ 0 ≤ py < h.

(** Modelled from the spec: the contract of the OpenCV calls made by
    [segment_visual_elements] and [save_visual_elements]; OpenCV is not under
    [src/].  A contour is the boundary of one foreground region of the image
    it was found in (3), so it is not empty and its points are pixels of that
    image; grayscale conversion and thresholding keep the image's size and
    refuse a missing image; the bounding rectangle is [bounding_rect]. *)
Class Cv2Contract {FS} (cv : Cv2 FS) : Prop := {
  cvtColor_None code : ∃ e, cv2_cvtColor None code = Raise e;
  cvtColor_shape img code gray :
    cv2_cvtColor (Some img) code = Return gray →
    width gray = width img ∧ height gray = height img;
  threshold_shape gray thresh maxval type retval binary :
    cv2_threshold gray thresh maxval type = Return (retval, binary) →
    width binary = width gray ∧ height binary = height gray;
  findContours_inside binary mode method contours hierarchy :
    cv2_findContours binary mode method = Return (contours, hierarchy) →
    ∀ c, c ∈ contours → contour_inside (width binary) (height binary) c;
  boundingRect_spec c : c ≠ [] → cv2_boundingRect c = Return (bounding_rect c)
}.

(** Modelled from the spec: the contract of the file-system calls made by
    [save_visual_elements]; [os] and OpenCV are not under [src/].  A directory
    that [os.makedirs] made exists (4.3: the output directory is created if
    absent), and writing an image file removes nothing. *)
Class FsContract {FS} (cv : Cv2 FS) (os : Os FS) : Prop := {
  makedirs_creates dir fs0 fs1 :
    os_makedirs dir fs0 = (Return tt, fs1) → os_path_exists dir fs1 = true;
  imwrite_keeps path img fs0 dir :
    os_path_exists dir fs0 = true →
    os_path_exists dir (cv2_imwrite path img fs0).2 = true
}.

(** *** Reading the report back *)

(** A scanner for the tags of an HTML text, as a reader of the report sees
    them: a tag runs from [<] to the next [>] that is not inside a
    double-quoted attribute value. *)
Inductive scan_state : Type := InText | InTag | InQuoted.

Fixpoint scan_tags (st : scan_state) (cur : string) (s : string) : list string :=
  match s with
  | EmptyString => []
  | String c rest =>
      match st with
      | InText =>
          if Ascii.eqb c "<" then scan_tags InTag EmptyString rest
          else scan_tags InText cur rest
      | InTag =>
          if Ascii.eqb c ">" then cur :: scan_tags InText EmptyString rest
          else if Ascii.eqb c "034"
          then scan_tags InQuoted (cur +:+ String c EmptyString) rest
          else scan_tags InTag (cur +:+ String c EmptyString) rest
      | InQuoted =>
          if Ascii.eqb c "034"
          then scan_tags InTag (cur +:+ String c EmptyString) rest
          else scan_tags InQuoted (cur +:+ String c EmptyString) rest
      end
  end.

Definition html_tags (s : string) : list string := scan_tags InText EmptyString s.

(** The tags of a well-formed report with the given images. *)
Definition report_tags (element_paths : list string) : list string :=
  ["html"; "body"; "p"; "/p"]
  ++ ((λ path, "img src=" +:+ dquote +:+ path +:+ dquote +:+ " /") <$> element_paths)
  ++ ["/body"; "/html"].

(** The three characters that end or open a tag or an attribute value. *)
Definition is_markup (c : ascii) : bool :=
  Ascii.eqb c "<" || Ascii.eqb c ">" || Ascii.eqb c "034".

Fixpoint has_markup (s : string) : bool :=
  match s with
  | EmptyString => false
  | String c rest => is_markup c || has_markup rest
  end.

(** ** Test doubles

    Small executable stand-ins for the collaborators, in the way the
    specification's design notes ask for them (fakes returning fixed contours
    and text).  They give the statements below concrete runs. *)
Module Fake.

(** A disk: its files, its directories, and the paths at which nothing can
    be written, made or removed. *)
Record Disk : Type := mkDisk {
  files : list (string * ndarray Pixel);
  dirs : list string;
  refused : list string
}.

Fixpoint lookup_file (path : string) (fl : list (string * ndarray Pixel))
  : option (ndarray Pixel) :=
  match fl with
  | [] => None
  | (q, img) :: rest => if String.eqb path q then Some img else lookup_file path rest
  end.

(** An uploaded picture, reduced to what OCR makes of it. *)
Definition PilImage : Type := outcome string.

Definition gray_of (px : Pixel) : Z := let '(b, g, r) := px in (b + g + r) / 3.

Definition inside (m : ndarray Z) (c : Contour) : bool :=
  match c with
  | [] => false
  | _ => forallb (λ '(px, py), (0 <=? px) && (px <? width m)
                              && (0 <=? py) && (py <? height m)) c
  end.

(** Twice the signed area of the polygon, by the shoelace formula, the way
    OpenCV accumulates it: [prev] is the point before the current one. *)
Fixpoint shoelace (prev : Z * Z) (c : Contour) : Z :=
  match c with
  | [] => 0
  | p :: rest => (prev.1 * p.2 - prev.2 * p.1) + shoelace p rest
  end.

Definition contour_area (c : Contour) : Q :=
  Qmake (Z.abs (shoelace (List.last c (0, 0)) c)) 2.

(** [posixpath.join] of two components. *)
Definition posix_join (a b : string) : string :=
  if String.prefix "/" b then b
  else if String.eqb a EmptyString then b
  else if String.eqb (String.substring (String.length a - 1) 1 a) "/" then a +:+ b
  else a +:+ "/" +:+ b.

Global Instance pytesseract : Pytesseract PilImage Disk := {|
  image_to_string img d := (img, d)
|}.

(** The contour finder answers with the [canned] contours that fit the
    image it is given.  [cv2.imwrite] raises on an image without pixels; a
    file it cannot write makes it return [False], without raising. *)
Definition cv2 (canned : list Contour) : Cv2 Disk := {|
  cv2_imread path d := Return (lookup_file path (files d));
  cv2_cvtColor img code :=
    match img with
    | None => Raise (Exception "cv2.error: !_src.empty() in function cvtColor")
    | Some arr => Return (map (map gray_of) arr)
    end;
  cv2_threshold gray thresh maxval type :=
    Return (inject_Z thresh,
            map (map (λ v, if v <=? thresh then maxval else 0)) gray);
  cv2_findContours binary mode method :=
    Return (List.filter (inside binary) canned, []);
  cv2_contourArea c := Return (contour_area c);
  cv2_boundingRect c := Return (bounding_rect c);
  cv2_imwrite path img d :=
    if bool_decide (img = []) || bool_decide (hd [] img = [])
    then (Raise (Exception "cv2.error: !_img.empty() in function imwrite"), d)
    else if bool_decide (path ∈ refused d)
    then (Return false, d)
    else (Return true, mkDisk ((path, img) :: files d) (dirs d) (refused d))
|}.

(** [st.image] raises on a path that names no file. *)
Global Instance streamlit : Streamlit Disk := {|
  streamlit_open_image path d :=
    match lookup_file path (files d) with
    | Some _ => Return tt
    | None =>
        Raise (Exception "MediaFileStorageError: Error opening the image file")
    end
|}.

Global Instance os : Os Disk := {|
  os_path_exists path d :=
    bool_decide (path ∈ dirs d) || bool_decide (is_Some (lookup_file path (files d)));
  os_makedirs path d :=
    if bool_decide (path ∈ refused d)
    then (Raise (Exception "PermissionError: [Errno 13] Permission denied"), d)
    else (Return tt, mkDisk (files d) (path :: dirs d) (refused d));
  os_path_join := posix_join
|}.

(** A 60 x 60 picture, all of one colour. *)
Definition picture : ndarray Pixel := replicate 60 (replicate 60 (255, 255, 255)).

(** Two rectangular outlines: 50 x 50 (area 2500) and 20 x 25 (area 500). *)
Definition big : Contour := [(2, 2); (52, 2); (52, 52); (2, 52)].
Definition small : Contour := [(5, 5); (25, 5); (25, 30); (5, 30)].
(** A second large outline, 40 x 40. *)
Definition other : Contour := [(10, 10); (50, 10); (50, 50); (10, 50)].
(** An outline that lies outside a 60 x 60 picture. *)
Definition far : Contour := [(100, 100); (150, 100); (150, 150); (100, 150)].

(** A disk holding the uploaded picture. *)
Definition disk : Disk := mkDisk [("temp_scan.png", picture)] [] [].


(** The same disk, on which the output directory cannot be made. *)
Definition locked_disk : Disk :=
  mkDisk [("temp_scan.png", picture)] [] ["output_elements"].

Definition start (d : Disk) : World Disk := mkWorld d [].

(** A picture in which the contour finder sees [big] and [small], and one
    in which it sees [other] as well. *)
Definition two_regions : Cv2 Disk := cv2 [big; small].
Definition three_regions : Cv2 Disk := cv2 [big; small; other].

(** A scan that OCR reads as "hello", and one it fails on. *)
Definition readable : PilImage := Return "hello".

End Fake.

(** A path and a text that carry markup characters. *)
Definition hostile_path : string := "x" +:+ dquote +:+ "><b".
Definition hostile_text : string := "a<b".

(** ** The rest of [main]: the locals of the processing block and cleanup *)

(** [os.remove], the one call of lines 118-121 that the stages do not make. *)
Class OsRemove (FS : Type) : Type := {
  os_remove : string → FS → outcome unit * FS
}.

Section main_tail.
Context {PilImage FS : Type}.
Context {tess : Pytesseract PilImage FS} {cv : Cv2 FS} {os : Os FS}.
Context {st : Streamlit FS}.
Context {rm : OsRemove FS}.

(** Lines 98-116 of [main] once more, as the rest of [main] sees them: the
    block leaves the locals [html_content] and [element_paths] behind. *)
Definition main_block (image : PilImage) (image_path : string)
  : M FS (string * list string) :=
  text ← extract_text image;
  st_subheader "Extracted Text";;
  st_write text;;
  st_code text "text";;
  '(image_cv2, contours) ← segment_visual_elements image_path;
  element_paths ← save_visual_elements image_cv2 contours "output_elements";
  st_subheader "Visual Elements";;
  for_each element_paths st_image;;
  html_content ← generate_html text element_paths;
  st_download_button "Download HTML" html_content "output.html" "text/html";;
  mret (html_content, element_paths).

(** The loop of lines 120-121, for any list of paths. *)
Definition remove_each (paths : list string) : M FS unit :=
  for_each paths (λ path, call_fs (os_remove path)).

(** Lines 119-121: no [try] around the removals. *)
Definition cleanup (image_path : string) (element_paths : list string) : M FS unit :=
  call_fs (os_remove image_path);;
  for_each element_paths (λ path, call_fs (os_remove path)).


End main_tail.


(** Modelled from the spec: the contract of [os.remove], which is Python's
    and not under [src/] (6: the temporary copy and the crops are deleted
    after the report is produced).  A path that was removed is gone, and
    removing one path brings no other into existence. *)
Class RemoveContract {FS} (os : Os FS) (rm : OsRemove FS) : Prop := {
  remove_removes path fs0 fs1 :
    os_remove path fs0 = (Return tt, fs1) → os_path_exists path fs1 = false;
  remove_creates_nothing path fs0 other :
    os_path_exists other fs0 = false →
    os_path_exists other (os_remove path fs0).2 = false
}.

(** An array is rectangular: every row has the width of the first. *)
Definition rectangular {A} (m : ndarray A) : Prop :=
  ∀ row, row ∈ m → Z.of_nat (length row) = width m.

(** [m[r][c]], for indices inside the array. *)
Definition pixel_at {A} (m : ndarray A) (r c : Z) : option A :=
  m !! Z.to_nat r ≫= λ row, row !! Z.to_nat c.

(** More test doubles: removal on the fake disk, and a disk driver whose
    image writes fail without raising. *)
Module FakeCleanup.

Fixpoint delete_file (path : string) (fl : list (string * ndarray Pixel))
  : list (string * ndarray Pixel) :=
  match fl with
  | [] => []
  | (q, img) :: rest =>
      if String.eqb path q then delete_file path rest
      else (q, img) :: delete_file path rest
  end.

Global Instance os_remove : OsRemove Fake.Disk := {|
  os_remove path d :=
    if bool_decide (path ∈ Fake.refused d)
    then (Raise (Exception "PermissionError: [Errno 13] Permission denied"), d)
    else if bool_decide (path ∈ Fake.dirs d)
    then (Raise (Exception "IsADirectoryError: [Errno 21] Is a directory"), d)
    else match Fake.lookup_file path (Fake.files d) with
         | None =>
             (Raise (Exception "FileNotFoundError: [Errno 2] No such file or directory"), d)
         | Some _ =>
             (Return tt,
              Fake.mkDisk (delete_file path (Fake.files d)) (Fake.dirs d)
                (Fake.refused d))
         end
|}.

(** [Fake.cv2], except that [cv2.imwrite] writes nothing and says so. *)
Definition write_protected (canned : list Contour) : Cv2 Fake.Disk := {|
  cv2_imread := @cv2_imread _ (Fake.cv2 canned);
  cv2_cvtColor := @cv2_cvtColor _ (Fake.cv2 canned);
  cv2_threshold := @cv2_threshold _ (Fake.cv2 canned);
  cv2_findContours := @cv2_findContours _ (Fake.cv2 canned);
  cv2_contourArea := @cv2_contourArea _ (Fake.cv2 canned);
  cv2_boundingRect := @cv2_boundingRect _ (Fake.cv2 canned);
  cv2_imwrite path img d := (Return false, d)
|}.

(** A disk on which the output directory is there already. *)
Definition prepared_disk : Fake.Disk :=
  Fake.mkDisk [("temp_scan.png", Fake.picture)] ["output_elements"] [].

(** A disk after a run that wrote one crop. *)
Definition used_disk : Fake.Disk :=
  Fake.mkDisk
    [("output_elements/element_0.png", [[(0, 0, 0)]]);
     ("temp_scan.png", Fake.picture)]
    ["output_elements"] [].


End FakeCleanup.

(** ** Python slices and names, on examples *)

Example py_slice_inner : py_slice [10; 11; 12; 13; 14] 1 3 = [11; 12].
Proof. reflexivity. Qed.

Example py_slice_clamped : py_slice [10; 11; 12; 13; 14] 3 99 = [13; 14].
Proof. reflexivity. Qed.

Example py_slice_negative : py_slice [10; 11; 12; 13; 14] (-2) 5 = [13; 14].
Proof. reflexivity. Qed.

Example py_slice_empty : py_slice [10; 11; 12; 13; 14] 4 2 = [].
Proof. reflexivity. Qed.

Example ndarray_slice_box :
  ndarray_slice [[1; 2; 3]; [4; 5; 6]; [7; 8; 9]] 1 3 0 2 = [[4; 5]; [7; 8]].
Proof. reflexivity. Qed.

Example element_name_12 : element_name 12 = "element_12.png".
Proof. reflexivity. Qed.

Example posix_join_plain :
  Fake.posix_join "output_elements" (element_name 0) = "output_elements/element_0.png".
Proof. reflexivity. Qed.

Example posix_join_slash : Fake.posix_join "out/" "element_0.png" = "out/element_0.png".
Proof. reflexivity. Qed.

Example bounding_rect_big : bounding_rect Fake.big = (2, 2, 51, 51).
Proof. reflexivity. Qed.

Example contour_area_big : (Fake.contour_area Fake.big == 2500)%Q.
Proof. reflexivity. Qed.

Example contour_area_small : (Fake.contour_area Fake.small == 500)%Q.
Proof. reflexivity. Qed.

(** ** Running monadic code *)

Lemma run_bind {FS A B} (m : M FS A) (k : A → M FS B) w a w' :
  m w = (Return a, w') → (m ≫= k) w = k a w'.
Proof. intros Hm. unfold mbind, M_bind. by rewrite Hm. Qed.

Lemma run_bind_raise {FS A B} (m : M FS A) (k : A → M FS B) w e w' :
  m w = (Raise e, w') → (m ≫= k) w = (Raise e, w').
Proof. intros Hm. unfold mbind, M_bind. by rewrite Hm. Qed.

Lemma run_try_return {FS A} (body : M FS A) handler w a w' :
  body w = (Return a, w') → try_except body handler w = (Return a, w').
Proof. intros Hb. unfold try_except. by rewrite Hb. Qed.

Lemma run_try_raise {FS A} (body : M FS A) handler w e w' :
  body w = (Raise e, w') → try_except body handler w = handler e w'.
Proof. intros Hb. unfold try_except. by rewrite Hb. Qed.

(** Every run ends in one of the two outcomes. *)
Lemma run_cases {FS A} (m : M FS A) w :
  (∃ a w', m w = (Return a, w')) ∨ (∃ e w', m w = (Raise e, w')).
Proof. destruct (m w) as [[a|e] w']; eauto. Qed.

(** One [st.image]: the picture is recorded unless the file cannot be
    opened. *)
Lemma st_image_run {FS} {st : Streamlit FS} (path : string) (w : World FS) :
  st_image path w
  = match streamlit_open_image path (fs w) with
    | Return _ => (Return tt, mkWorld (fs w) (ui w ++ [UiImage path]))
    | Raise e => (Raise e, w)
    end.
Proof.
  unfold st_image, mbind, M_bind, call_read, st_emit.
  by destruct (streamlit_open_image path (fs w)).
Qed.

(** The loop of lines 112-113 shows the pictures in order, up to the first
    that cannot be opened. *)
Lemma show_elements_cases {FS} {st : Streamlit FS} (paths : list string)
    (w : World FS) :
  for_each paths st_image w
    = (Return tt, mkWorld (fs w) (ui w ++ (UiImage <$> paths)))
  ∨ ∃ shown path rest e,
      paths = shown ++ path :: rest
      ∧ streamlit_open_image path (fs w) = Raise e
      ∧ for_each paths st_image w
        = (Raise e, mkWorld (fs w) (ui w ++ (UiImage <$> shown))).
Proof.
  revert w. induction paths as [|p paths IH]; intros [f u].
  - left. simpl. by rewrite app_nil_r.
  - cbn [for_each]. unfold mbind, M_bind. rewrite st_image_run. cbn [fs ui].
    destruct (streamlit_open_image p f) as [[]|e] eqn:Hopen.
    + destruct (IH (mkWorld f (u ++ [UiImage p])))
        as [Hall | (shown & path & rest & e & -> & Hraise & Hrun)];
        cbn [fs ui] in *.
      * left. rewrite Hall. cbn [fmap list_fmap]. by rewrite <- app_assoc.
      * right. exists (p :: shown), path, rest, e.
        split; [done|]. split; [done|].
        rewrite Hrun. cbn [fmap list_fmap]. by rewrite <- app_assoc.
    + right. exists [], p, paths, e. cbn [fmap list_fmap].
      by rewrite app_nil_r.
Qed.

Lemma show_no_element {FS} {st : Streamlit FS} (w : World FS) :
  for_each [] st_image w = (Return tt, w).
Proof. reflexivity. Qed.


(** ** Strings *)

Lemma string_app_nil_l (b : string) : EmptyString +:+ b = b.
Proof. reflexivity. Qed.

Lemma string_app_cons (ch : ascii) (a b : string) :
  String ch a +:+ b = String ch (a +:+ b).
Proof. reflexivity. Qed.

Lemma string_app_assoc (a b c : string) : (a +:+ b) +:+ c = a +:+ (b +:+ c).
Proof.
  induction a as [|ch a IH]; [done|].
  by rewrite !string_app_cons, IH.
Qed.

Lemma string_app_nil_r (a : string) : a +:+ EmptyString = a.
Proof.
  induction a as [|ch a IH]; [done|].
  by rewrite string_app_cons, IH.
Qed.

Lemma fold_left_img_tags (paths : list string) (acc : string) :
  fold_left (λ html_content path, html_content +:+ img_tag path) paths acc
  = acc +:+ img_tags paths.
Proof.
  revert acc. induction paths as [|p paths IH]; intros acc; cbn [fold_left img_tags].
  - by rewrite string_app_nil_r.
  - by rewrite IH, string_app_assoc.
Qed.

(** ** The stages, one by one *)

Section stages.
Context {PilImage FS : Type}.
Context {tess : Pytesseract PilImage FS} {cv : Cv2 FS} {os : Os FS}.
Context {st : Streamlit FS}.

Implicit Types (w : World FS) (image : option (ndarray Pixel)).

(** *** [generate_html] *)

Lemma generate_html_run text paths w :
  generate_html text paths w = (Return (html_doc text paths), w).
Proof.
  unfold generate_html, html_doc, mret, M_ret.
  rewrite fold_left_img_tags. by rewrite !string_app_assoc.
Qed.

(** *** [extract_text] *)

Lemma extract_text_ok (pil : PilImage) w text fs' :
  image_to_string pil (fs w) = (Return text, fs') →
  extract_text pil w = (Return text, mkWorld fs' (ui w)).
Proof.
  intros Hocr. unfold extract_text, try_except, mbind, M_bind, call_fs.
  by rewrite Hocr.
Qed.

Lemma extract_text_failed (pil : PilImage) w e fs' :
  image_to_string pil (fs w) = (Raise e, fs') →
  ∃ notice,
    extract_text pil w
    = (Return extraction_failed, mkWorld fs' (ui w ++ [UiError notice])).
Proof.
  intros Hocr. unfold extract_text, try_except, mbind, M_bind, call_fs.
  rewrite Hocr. destruct e; eexists; reflexivity.
Qed.

Lemma extract_text_returns (pil : PilImage) w :
  ∃ text w', extract_text pil w = (Return text, w').
Proof.
  destruct (image_to_string pil (fs w)) as [[text|e] fs'] eqn:Hocr.
  - eauto using extract_text_ok.
  - destruct (extract_text_failed _ _ _ _ Hocr) as [notice Hrun]. eauto.
Qed.

(** *** [segment_visual_elements] *)

Lemma segment_failed image_path w e w' :
  segment_body image_path w = (Raise e, w') →
  segment_visual_elements image_path w
  = (Return (None, []),
     mkWorld (fs w')
       (ui w' ++ [UiError ("An error occurred while segmenting visual elements: "
                           +:+ exn_str e)])).
Proof.
  intros Hbody. unfold segment_visual_elements.
  by rewrite (run_try_raise _ _ _ _ _ Hbody).
Qed.

Lemma segment_returns image_path w :
  ∃ image contours w',
    segment_visual_elements image_path w = (Return (image, contours), w').
Proof.
  destruct (run_cases (segment_body image_path) w)
    as [([image contours] & w' & Hbody) | (e & w' & Hbody)].
  - exists image, contours, w'. unfold segment_visual_elements.
    by rewrite (run_try_return _ _ _ _ _ Hbody).
  - rewrite (segment_failed _ _ _ _ Hbody). eauto.
Qed.

(** The filtering loop keeps, in order, the contours whose area exceeds
    1000, provided [cv2.contourArea] answers for each of them. *)
Lemma filter_loop_run (area : Contour → Q) contours filtered w :
  (∀ c, c ∈ contours → cv2_contourArea c = Return (area c)) →
  filter_loop contours filtered w
  = (Return (filtered ++ filter (λ c, area_gt_1000 (area c)) contours), w).
Proof.
  revert filtered. induction contours as [|c contours IH]; intros filtered Harea.
  - simpl. by rewrite app_nil_r.
  - simpl. unfold mbind, M_bind, call.
    rewrite (Harea c) by left.
    destruct (area_gt_1000 (area c)) eqn:Hgt.
    + rewrite IH by (intros; apply Harea; by right).
      rewrite filter_cons_True by (by rewrite Hgt).
      by rewrite <- app_assoc.
    + rewrite IH by (intros; apply Harea; by right).
      by rewrite filter_cons_False by (rewrite Hgt; intros []).
Qed.

Lemma area_gt_1000_spec (a : Q) : area_gt_1000 a ↔ (1000 < a)%Q.
Proof.
  unfold area_gt_1000. rewrite negb_True, Is_true_true, Qle_bool_iff.
  split; [apply Qnot_le_lt | apply Qlt_not_le].
Qed.

(** *** [save_visual_elements] *)

Lemma save_failed image contours output_dir w e w' :
  save_body image contours output_dir w = (Raise e, w') →
  save_visual_elements image contours output_dir w
  = (Return [],
     mkWorld (fs w')
       (ui w' ++ [UiError ("An error occurred while saving visual elements: "
                           +:+ exn_str e)])).
Proof.
  intros Hbody. unfold save_visual_elements.
  by rewrite (run_try_raise _ _ _ _ _ Hbody).
Qed.

Lemma save_ok image contours output_dir w paths w' :
  save_body image contours output_dir w = (Return paths, w') →
  save_visual_elements image contours output_dir w = (Return paths, w').
Proof. intros Hbody. unfold save_visual_elements. by apply run_try_return. Qed.

Lemma save_returns image contours output_dir w :
  ∃ paths w',
    save_visual_elements image contours output_dir w = (Return paths, w').
Proof.
  destruct (run_cases (save_body image contours output_dir) w)
    as [(paths & w' & Hbody) | (e & w' & Hbody)].
  - eauto using save_ok.
  - rewrite (save_failed _ _ _ _ _ _ Hbody). eauto.
Qed.

(** Whatever turn the loop is in, what it returns extends the list it was
    given by one path per remaining contour, numbered from [i]. *)
Lemma save_loop_paths image output_dir contours i acc w paths w' :
  save_loop image output_dir i contours acc w = (Return paths, w') →
  paths = acc ++ element_paths_from output_dir i (length contours).
Proof.
  revert i acc w. induction contours as [|c contours IH]; intros i acc w; simpl.
  - unfold mret, M_ret. intros [= <- <-]. by rewrite app_nil_r.
  - unfold mbind, M_bind.
    destruct (save_one image output_dir i c w) as [[p|e] w1] eqn:Hone; [|done].
    intros Hrest. apply IH in Hrest. subst paths.
    rewrite <- app_assoc. f_equal. simpl. f_equal.
    unfold save_one, mbind, M_bind, call in Hone.
    destruct (cv2_boundingRect c) as [[[[x y] bw] bh]|]; [|done].
    destruct (crop image x y bw bh w) as [[v|] w2]; [|done].
    destruct (call_fs _ w2) as [[b|] w3]; [|done].
    by inversion Hone.
Qed.

(** With no contour the loop body never runs. *)
Lemma save_nothing image output_dir w :
  ∃ w', save_visual_elements image [] output_dir w = (Return [], w').
Proof.
  unfold save_visual_elements, try_except, save_body, mbind, M_bind.
  destruct (ensure_dir output_dir w) as [[[]|e] w1]; simpl; eauto.
Qed.

(** *** [main_process] *)

(** The block up to the heading of the elements. *)
Lemma main_process_stages (pil : PilImage) image_path w0
    text w1 image contours w2 paths w3 :
  extract_text pil w0 = (Return text, w1) →
  segment_visual_elements image_path (text_shown text w1)
    = (Return (image, contours), w2) →
  save_visual_elements image contours "output_elements" w2 = (Return paths, w3) →
  main_process pil image_path w0
  = (for_each paths st_image;;
     html_content ← generate_html text paths;
     st_download_button "Download HTML" html_content "output.html" "text/html";;
     mret html_content) (elements_heading w3).
Proof.
  intros Htext Hseg Hsave. unfold main_process.
  rewrite (run_bind _ _ _ _ _ Htext).
  unfold st_subheader, st_write, st_code.
  do 3 (erewrite run_bind by reflexivity).
  simpl. repeat rewrite <- app_assoc. simpl.
  change (mkWorld (fs w1) _) with (text_shown text w1).
  rewrite (run_bind _ _ _ _ _ Hseg).
  rewrite (run_bind _ _ _ _ _ Hsave).
  by erewrite run_bind by reflexivity.
Qed.

(** When every picture could be shown, the block returns the report. *)
Lemma main_process_run_shown (pil : PilImage) image_path w0
    text w1 image contours w2 paths w3 w4 :
  extract_text pil w0 = (Return text, w1) →
  segment_visual_elements image_path (text_shown text w1)
    = (Return (image, contours), w2) →
  save_visual_elements image contours "output_elements" w2 = (Return paths, w3) →
  for_each paths st_image (elements_heading w3) = (Return tt, w4) →
  main_process pil image_path w0
  = (Return (html_doc text paths),
     mkWorld (fs w4)
       (ui w4 ++ [UiDownloadButton "Download HTML" (html_doc text paths)
                    "output.html" "text/html"])).
Proof.
  intros Htext Hseg Hsave Hshow.
  rewrite (main_process_stages _ _ _ _ _ _ _ _ _ _ Htext Hseg Hsave).
  rewrite (run_bind _ _ _ _ _ Hshow).
  erewrite run_bind by apply generate_html_run.
  by erewrite run_bind by reflexivity.
Qed.

(** When one could not, the block raises what [st.image] raised. *)
Lemma main_process_run_raise (pil : PilImage) image_path w0
    text w1 image contours w2 paths w3 e w4 :
  extract_text pil w0 = (Return text, w1) →
  segment_visual_elements image_path (text_shown text w1)
    = (Return (image, contours), w2) →
  save_visual_elements image contours "output_elements" w2 = (Return paths, w3) →
  for_each paths st_image (elements_heading w3) = (Raise e, w4) →
  main_process pil image_path w0 = (Raise e, w4).
Proof.
  intros Htext Hseg Hsave Hshow.
  rewrite (main_process_stages _ _ _ _ _ _ _ _ _ _ Htext Hseg Hsave).
  by rewrite (run_bind_raise _ _ _ _ _ Hshow).
Qed.

(** With no element to show, the block returns the report. *)
Lemma main_process_run (pil : PilImage) image_path w0
    text w1 image contours w2 w3 :
  extract_text pil w0 = (Return text, w1) →
  segment_visual_elements image_path (text_shown text w1)
    = (Return (image, contours), w2) →
  save_visual_elements image contours "output_elements" w2 = (Return [], w3) →
  ∃ w4, main_process pil image_path w0 = (Return (html_doc text []), w4).
Proof.
  intros Htext Hseg Hsave. eexists.
  exact (main_process_run_shown _ _ _ _ _ _ _ _ _ _ _ Htext Hseg Hsave
           (show_no_element _)).
Qed.


(** *** Facts about the loops *)

(** The filtering loop only ever returns contours it was given. *)
Lemma filter_loop_subset contours filtered w result w' :
  filter_loop contours filtered w = (Return result, w') →
  ∀ c, c ∈ result → c ∈ filtered ∨ c ∈ contours.
Proof.
  revert filtered w. induction contours as [|c0 contours IH]; intros filtered w; simpl.
  - unfold mret, M_ret. intros [= <- <-] c Hc. by left.
  - unfold mbind, M_bind, call.
    destruct (cv2_contourArea c0) as [a|]; [|done].
    destruct (area_gt_1000 a); intros Hrun c Hc;
      destruct (IH _ _ Hrun c Hc) as [Hin|Hin].
    + apply elem_of_app in Hin as [Hin|Hin%list_elem_of_singleton]; subst; auto.
      right; left.
    + right; by right.
    + by left.
    + right; by right.
Qed.

(** What the [try] body of [segment_visual_elements] went through when it
    returned. *)
Lemma segment_body_inv image_path w image contours w' :
  segment_body image_path w = (Return (image, contours), w') →
  ∃ gray retval binary found hierarchy,
    cv2_imread image_path (fs w) = Return image ∧
    cv2_cvtColor image cv2.COLOR_BGR2GRAY = Return gray ∧
    cv2_threshold gray 128 255 (cv2.THRESH_BINARY_INV + cv2.THRESH_OTSU)
      = Return (retval, binary) ∧
    cv2_findContours binary cv2.RETR_EXTERNAL cv2.CHAIN_APPROX_SIMPLE
      = Return (found, hierarchy) ∧
    filter_loop found [] w = (Return contours, w').
Proof.
  unfold segment_body, mbind, M_bind, call, call_read.
  destruct (cv2_imread image_path (fs w)) as [oimg|]; [|done].
  destruct (cv2_cvtColor oimg _) as [gray|] eqn:Hgray; [|done].
  destruct (cv2_threshold gray _ _ _) as [[retval binary]|] eqn:Hbin; [|done].
  destruct (cv2_findContours binary _ _) as [[found hierarchy]|] eqn:Hfound; [|done].
  destruct (filter_loop found [] w) as [[filtered|] w1] eqn:Hloop; [|done].
  unfold mret, M_ret. intros [= <- <- <-].
  by exists gray, retval, binary, found, hierarchy.
Qed.

(** One turn of the saving loop, and the loop, only write image files. *)
Lemma save_one_keeps `{!FsContract cv os} image output_dir i c w dir :
  os_path_exists dir (fs w) = true →
  os_path_exists dir (fs (save_one image output_dir i c w).2) = true.
Proof.
  intros Hdir. unfold save_one, mbind, M_bind, call.
  destruct (cv2_boundingRect c) as [[[[x y] bw] bh]|]; [|done].
  unfold crop. destruct image as [arr|]; [|done].
  unfold mret, M_ret, call_fs.
  pose proof (imwrite_keeps (os_path_join output_dir (element_name i))
                (ndarray_slice arr y (y + bh) x (x + bw)) (fs w) dir Hdir) as Hkeep.
  destruct (cv2_imwrite _ _ (fs w)) as [[b|] fs1]; done.
Qed.

Lemma save_loop_keeps `{!FsContract cv os} image output_dir contours i acc w dir :
  os_path_exists dir (fs w) = true →
  os_path_exists dir (fs (save_loop image output_dir i contours acc w).2) = true.
Proof.
  revert i acc w. induction contours as [|c contours IH]; intros i acc w Hdir; [done|].
  simpl. unfold mbind, M_bind.
  pose proof (save_one_keeps image output_dir i c w dir Hdir) as Hone.
  destruct (save_one image output_dir i c w) as [[p|] w1]; [|done].
  by apply IH.
Qed.

(** *** Bounding rectangles *)

Lemma foldr_min_max (d : Z) (l : list Z) : foldr Z.min d l ≤ d ≤ foldr Z.max d l.
Proof. induction l as [|v l IH]; simpl; lia. Qed.

Lemma foldr_min_in_range (lo hi d : Z) (l : list Z) :
  lo ≤ d < hi → (∀ v, v ∈ l → lo ≤ v < hi) → lo ≤ foldr Z.min d l < hi.
Proof.
  intros Hd. induction l as [|v l IH]; intros Hl; simpl; [done|].
  pose proof (Hl v ltac:(left)). pose proof (IH (λ u Hu, Hl u ltac:(by right))). lia.
Qed.

Lemma foldr_max_in_range (lo hi d : Z) (l : list Z) :
  lo ≤ d < hi → (∀ v, v ∈ l → lo ≤ v < hi) → lo ≤ foldr Z.max d l < hi.
Proof.
  intros Hd. induction l as [|v l IH]; intros Hl; simpl; [done|].
  pose proof (Hl v ltac:(left)). pose proof (IH (λ u Hu, Hl u ltac:(by right))). lia.
Qed.

(** The bounding rectangle of a contour inside a [W] x [H] image is a
    non-empty rectangle inside that image. *)
Lemma bounding_rect_inside (W H : Z) (c : Contour) x y bw bh :
  contour_inside W H c →
  bounding_rect c = (x, y, bw, bh) →
  0 ≤ x ∧ 0 ≤ y ∧ x + bw ≤ W ∧ y + bh ≤ H ∧ bw > 0 ∧ bh > 0.
Proof.
  intros [Hne Hin]. destruct c as [|[px py] rest]; [done|]. simpl.
  intros [= <- <- <- <-].
  destruct (Hin px py ltac:(left)) as [Hpx Hpy].
  assert (∀ v, v ∈ rest.*1 → 0 ≤ v < W) as Hxs.
  { intros v [[qx qy] [-> Hq]]%list_elem_of_fmap.
    by apply (Hin qx qy); right. }
  assert (∀ v, v ∈ rest.*2 → 0 ≤ v < H) as Hys.
  { intros v [[qx qy] [-> Hq]]%list_elem_of_fmap.
    by apply (Hin qx qy); right. }
  pose proof (foldr_min_in_range 0 W px _ Hpx Hxs).
  pose proof (foldr_max_in_range 0 W px _ Hpx Hxs).
  pose proof (foldr_min_in_range 0 H py _ Hpy Hys).
  pose proof (foldr_max_in_range 0 H py _ Hpy Hys).
  pose proof (foldr_min_max px rest.*1).
  pose proof (foldr_min_max py rest.*2).
  lia.
Qed.

End stages.

(** ** Reading a report back *)

Ltac norm_strings :=
  repeat (rewrite string_app_assoc || rewrite string_app_cons
          || rewrite string_app_nil_l).

Lemma has_markup_cons (c : ascii) (s : string) :
  has_markup (String c s) = false →
  Ascii.eqb c "<" = false ∧ Ascii.eqb c ">" = false ∧ Ascii.eqb c "034" = false
  ∧ has_markup s = false.
Proof.
  simpl. unfold is_markup.
  destruct (Ascii.eqb c "<"), (Ascii.eqb c ">"), (Ascii.eqb c "034");
    simpl; intros; by repeat split.
Qed.

(** Outside a tag, text without markup is skipped. *)
Lemma scan_text_skip (s cur rest : string) :
  has_markup s = false →
  scan_tags InText cur (s +:+ rest) = scan_tags InText cur rest.
Proof.
  induction s as [|c s IH]; [done|].
  intros (Hlt & _ & _ & Hs)%has_markup_cons.
  rewrite string_app_cons. simpl. rewrite Hlt. auto.
Qed.

(** Inside a tag, and inside a quoted value, it is taken into the tag. *)
Lemma scan_tag_take (s cur rest : string) :
  has_markup s = false →
  scan_tags InTag cur (s +:+ rest) = scan_tags InTag (cur +:+ s) rest.
Proof.
  revert cur. induction s as [|c s IH]; intros cur.
  - by rewrite string_app_nil_r.
  - intros (_ & Hgt & Hq & Hs)%has_markup_cons.
    rewrite string_app_cons. simpl. rewrite Hgt, Hq, IH by done.
    by norm_strings.
Qed.

Lemma scan_quoted_take (s cur rest : string) :
  has_markup s = false →
  scan_tags InQuoted cur (s +:+ rest) = scan_tags InQuoted (cur +:+ s) rest.
Proof.
  revert cur. induction s as [|c s IH]; intros cur.
  - by rewrite string_app_nil_r.
  - intros (_ & _ & Hq & Hs)%has_markup_cons.
    rewrite string_app_cons. simpl. rewrite Hq, IH by done.
    by norm_strings.
Qed.

Lemma scan_img_tag (path cur rest : string) :
  has_markup path = false →
  scan_tags InText cur (img_tag path +:+ rest)
  = ("img src=" +:+ dquote +:+ path +:+ dquote +:+ " /")
    :: scan_tags InText EmptyString rest.
Proof.
  intros Hpath. unfold img_tag, dquote. norm_strings. simpl.
  rewrite scan_quoted_take by done. simpl.
  f_equal. by norm_strings.
Qed.

Lemma scan_img_tags (paths : list string) (cur rest : string) :
  (∀ path, path ∈ paths → has_markup path = false) →
  scan_tags InText cur (img_tags paths +:+ rest)
  = ((λ path, "img src=" +:+ dquote +:+ path +:+ dquote +:+ " /") <$> paths)
    ++ scan_tags InText (if paths is [] then cur else EmptyString) rest.
Proof.
  revert cur. induction paths as [|p paths IH]; intros cur Hclean; [done|].
  cbn [img_tags fmap list_fmap]. rewrite string_app_assoc.
  rewrite scan_img_tag by (apply Hclean; left).
  rewrite IH by (intros; apply Hclean; by right).
  simpl. by destruct paths.
Qed.

(** A report whose text and paths carry no markup character reads back as
    exactly the intended tags. *)
Lemma html_tags_clean (text : string) (paths : list string) :
  has_markup text = false →
  (∀ path, path ∈ paths → has_markup path = false) →
  html_tags (html_doc text paths) = report_tags paths.
Proof.
  intros Htext Hpaths. unfold html_tags, html_doc, report_tags.
  norm_strings. simpl.
  rewrite scan_text_skip by done.
  norm_strings. simpl.
  rewrite scan_img_tags by done.
  norm_strings. f_equal; by destruct paths.
Qed.

(** ** The test doubles honour the contracts *)

Lemma width_map {A B} (f : A → B) (m : ndarray A) : width (map (map f) m) = width m.
Proof. unfold width. destruct m as [|row m]; simpl; [done|]. by rewrite length_map. Qed.

Lemma height_map {A B} (f : A → B) (m : ndarray A) : height (map (map f) m) = height m.
Proof. unfold height. by rewrite length_map. Qed.

Lemma fake_cv2_contract (canned : list Contour) : Cv2Contract (Fake.cv2 canned).
Proof.
  split.
  - intros code. eexists. reflexivity.
  - intros img code gray [= <-]. by rewrite width_map, height_map.
  - intros gray thresh maxval type retval binary [= _ <-].
    by rewrite width_map, height_map.
  - intros binary mode method contours hierarchy [= <- _] c Hc.
    apply list_elem_of_In, filter_In in Hc as [_ Hinside].
    unfold Fake.inside in Hinside. split.
    + by destruct c.
    + intros px py Hp. destruct c as [|p0 c]; [done|].
      rewrite forallb_forall in Hinside.
      apply list_elem_of_In, Hinside in Hp. lia.
  - done.
Qed.

Lemma fake_lookup_file_cons path img files dir :
  is_Some (Fake.lookup_file dir files) →
  is_Some (Fake.lookup_file dir ((path, img) :: files)).
Proof. intros Hdir. simpl. by destruct (String.eqb dir path). Qed.

Lemma fake_fs_contract (canned : list Contour) : FsContract (Fake.cv2 canned) Fake.os.
Proof.
  split.
  - intros dir d d1. simpl. destruct (bool_decide (dir ∈ Fake.refused d)); [done|].
    intros [= <-]. simpl. rewrite bool_decide_true by left. done.
  - intros path img d dir. simpl.
    destruct (bool_decide (img = []) || bool_decide (hd [] img = [])); [done|].
    destruct (bool_decide (path ∈ Fake.refused d)); [done|]. simpl.
    rewrite !orb_true_iff, !bool_decide_eq_true.
    intros [Hdir|Hfile]; [by left|right]. by apply fake_lookup_file_cons.
Qed.

(** ** The claims *)

Section claims.
Context {PilImage FS : Type}.
Context {tess : Pytesseract PilImage FS} {cv : Cv2 FS} {os : Os FS}.
Context {st : Streamlit FS}.

Implicit Types (w : World FS) (image : option (ndarray Pixel)).

(** C1, as amended.  When an exception is raised while elements are being
    materialized (creating the output directory, computing a box, cropping
    or writing a crop), [save_visual_elements] aborts, reports the error and
    returns the empty list, whatever had been written before; the file
    system stays as the failure left it, and the processing block still
    builds the report, with the text and no image. *)
Theorem materialize_failure_returns_nothing
    image contours w e w' (pil : PilImage) image_path w0 text w1 :
  save_body image contours "output_elements" w = (Raise e, w') →
  extract_text pil w0 = (Return text, w1) →
  segment_visual_elements image_path (text_shown text w1)
    = (Return (image, contours), w) →
  (∃ w3, save_visual_elements image contours "output_elements" w = (Return [], w3)
         ∧ fs w3 = fs w'
         ∧ ui w3 = ui w' ++ [UiError ("An error occurred while saving visual elements: "
                                      +:+ exn_str e)])
  ∧ (∃ w4, main_process pil image_path w0 = (Return (html_doc text []), w4)).
Proof.
  intros Hbody Htext Hseg.
  pose proof (save_failed _ _ _ _ _ _ Hbody) as Hsave. split.
  - eexists. split; [exact Hsave | done].
  - exact (main_process_run _ _ _ _ _ _ _ _ _ Htext Hseg Hsave).
Qed.

(** C2.  A contour found by the segmentation stage is in the list
    [segment_visual_elements] returns exactly when its area is strictly
    greater than 1000; in particular, when the stage finds one region of
    area 2500 and one of area 500, exactly one contour survives, the one of
    area 2500. *)
Theorem segment_keeps_area_above_1000
    image_path w image gray retval binary found hierarchy (area : Contour → Q) :
  cv2_imread image_path (fs w) = Return image →
  cv2_cvtColor image cv2.COLOR_BGR2GRAY = Return gray →
  cv2_threshold gray 128 255 (cv2.THRESH_BINARY_INV + cv2.THRESH_OTSU)
    = Return (retval, binary) →
  cv2_findContours binary cv2.RETR_EXTERNAL cv2.CHAIN_APPROX_SIMPLE
    = Return (found, hierarchy) →
  (∀ c, c ∈ found → cv2_contourArea c = Return (area c)) →
  ∃ survivors,
    segment_visual_elements image_path w = (Return (image, survivors), w)
    ∧ (∀ c, c ∈ survivors ↔ c ∈ found ∧ (1000 < area c)%Q)
    ∧ (∀ c2500 c500,
          (area c2500 == 2500)%Q → (area c500 == 500)%Q →
          found = [c2500; c500] ∨ found = [c500; c2500] →
          survivors = [c2500]).
Proof.
  intros Hread Hgray Hbin Hfound Harea.
  exists (filter (λ c, area_gt_1000 (area c)) found). split; [|split].
  - unfold segment_visual_elements. apply run_try_return.
    unfold segment_body, mbind, M_bind, call, call_read.
    rewrite Hread, Hgray, Hbin, Hfound.
    by rewrite (filter_loop_run area found [] w Harea).
  - intros c. rewrite list_elem_of_filter, area_gt_1000_spec. tauto.
  - intros c2500 c500 Hbig Hsmall Hfew.
    assert (area_gt_1000 (area c2500)) as Hkeep.
    { apply area_gt_1000_spec. by rewrite Hbig. }
    assert (¬ area_gt_1000 (area c500)) as Hdrop.
    { rewrite area_gt_1000_spec, Hsmall. by intros ?. }
    destruct Hfew as [-> | ->].
    + rewrite filter_cons_True, filter_cons_False by done. done.
    + rewrite filter_cons_False, filter_cons_True by done. done.
Qed.


(** C4.  When any step of segmentation raises (reading, grayscale,
    threshold, contours, areas), [segment_visual_elements] raises nothing
    and returns [(None, [])]; materialization then has nothing to do and
    returns no path without touching the missing image, and the processing
    block produces the report with no image. *)
Theorem segment_failure_gives_nothing
    image_path w e w' (pil : PilImage) w0 text w1 :
  segment_body image_path w = (Raise e, w') →
  extract_text pil w0 = (Return text, w1) →
  text_shown text w1 = w →
  ∃ w2,
    segment_visual_elements image_path w = (Return (None, []), w2)
    ∧ (∃ w3, save_visual_elements None [] "output_elements" w2 = (Return [], w3))
    ∧ (∃ w4, main_process pil image_path w0 = (Return (html_doc text []), w4)).
Proof.
  intros Hbody Htext <-.
  pose proof (segment_failed _ _ _ _ Hbody) as Hseg.
  eexists. split; [exact Hseg|].
  destruct (save_nothing None "output_elements"
              (mkWorld (fs w')
                 (ui w' ++ [UiError ("An error occurred while segmenting visual elements: "
                                     +:+ exn_str e)])))
    as [w3 Hsave].
  split; [by exists w3|].
  exact (main_process_run _ _ _ _ _ _ _ _ _ Htext Hseg Hsave).
Qed.

(** C5.  When nothing fails, [save_visual_elements] returns one path per
    contour: the path at index [i] is [output_dir] joined with
    [element_<i>.png], for [i] = 0, 1, ... in the order of the contours.
    With no contour the list is empty (failure or not). *)
Theorem materialize_paths_by_index image contours output_dir w :
  (∀ e, (save_body image contours output_dir w).1 ≠ Raise e) →
  ∃ paths,
    (save_visual_elements image contours output_dir w).1 = Return paths
    ∧ length paths = length contours
    ∧ (∀ i : nat, (i < length contours)%nat →
         paths !! i
         = Some (os_path_join output_dir ("element_" +:+ pretty i +:+ ".png")))
    ∧ paths = element_paths_from output_dir 0 (length contours)
    ∧ (save_visual_elements image [] output_dir w).1 = Return [].
Proof.
  intros Hno_failure.
  destruct (save_body image contours output_dir w) as [[paths|e] w'] eqn:Hbody;
    [|by destruct (Hno_failure e)].
  exists paths. rewrite (save_ok _ _ _ _ _ _ Hbody).
  assert (paths = element_paths_from output_dir 0 (length contours)) as ->.
  { unfold save_body, mbind, M_bind in Hbody.
    destruct (ensure_dir output_dir w) as [[[]|] w1]; [|done].
    by apply save_loop_paths in Hbody. }
  unfold element_paths_from. repeat split.
  - by rewrite length_fmap, length_seq.
  - intros i Hi. rewrite list_lookup_fmap, lookup_seq_lt by done. done.
  - destruct (save_nothing image output_dir w) as [w3 ->]. done.
Qed.

(** C6.  [generate_html] is pure and deterministic: it raises nothing,
    leaves the world as it found it, and its result depends on nothing but
    its two arguments, so two calls with the same arguments, in whatever
    worlds, return the same string. *)
Theorem generate_html_deterministic text paths w1 w2 :
  ∃ html,
    generate_html text paths w1 = (Return html, w1)
    ∧ generate_html text paths w2 = (Return html, w2)
    ∧ (first ← generate_html text paths;
       second ← generate_html text paths;
       mret (first, second)) w1 = (Return (html, html), w1).
Proof.
  exists (html_doc text paths). repeat split.
  - apply generate_html_run.
  - apply generate_html_run.
  - erewrite run_bind by apply generate_html_run.
    erewrite run_bind by apply generate_html_run. done.
Qed.

(** C7.  [generate_html] returns [<html><body>], one paragraph holding the
    text as it is, one [<img>] tag per path in input order, and
    [</body></html>], nothing else: a report whose text and paths contain
    no markup character reads back as exactly these tags.  For the empty
    text and no path the result is [<html><body><p></p></body></html>]. *)
Theorem generate_html_shape text paths w :
  generate_html text paths w
    = (Return ("<html><body>" +:+ "<p>" +:+ text +:+ "</p>"
               +:+ img_tags paths +:+ "</body></html>"), w)
  ∧ (∀ path rest,
       img_tags (path :: rest)
       = "<img src=" +:+ dquote +:+ path +:+ dquote +:+ " />" +:+ img_tags rest)
  ∧ img_tags [] = EmptyString
  ∧ (has_markup text = false →
     (∀ path, path ∈ paths → has_markup path = false) →
     html_tags (html_doc text paths) = report_tags paths)
  ∧ generate_html EmptyString [] w = (Return "<html><body><p></p></body></html>", w).
Proof.
  split; [apply generate_html_run|].
  split; [intros; cbn [img_tags]; unfold img_tag; by rewrite !string_app_assoc|].
  split; [done|].
  split; [apply html_tags_clean|].
  apply generate_html_run.
Qed.


(** C8.  For every contour that [segment_visual_elements] lets through, the
    turn of the loop of [save_visual_elements] that handles it (lines 51-54)
    computes, under OpenCV's contract, a bounding box [(x, y, w, h)] inside
    the image that was read: [0 <= x], [0 <= y], [x + w <= width],
    [y + h <= height], and [w > 0], [h > 0].  It is with this box that the
    turn crops the image, so the crop it hands to [cv2.imwrite] is the slice
    [image[y:y+h, x:x+w]] of exactly [h] rows; neither the box nor the
    subscript can make the turn raise. *)
Theorem bounding_boxes_within_image
    (contract : Cv2Contract cv) image_path w image contours w' :
  segment_visual_elements image_path w = (Return (image, contours), w') →
  ∀ c, c ∈ contours →
    ∃ img x y bw bh,
      image = Some img
      ∧ cv2_boundingRect c = Return (x, y, bw, bh)
      ∧ 0 ≤ x ∧ 0 ≤ y
      ∧ x + bw ≤ width img ∧ y + bh ≤ height img
      ∧ bw > 0 ∧ bh > 0
      ∧ height (ndarray_slice img y (y + bh) x (x + bw)) = bh
      ∧ ∀ output_dir i w2,
          save_one image output_dir i c w2
          = (call_fs (cv2_imwrite (os_path_join output_dir (element_name i))
                        (ndarray_slice img y (y + bh) x (x + bw)));;
             mret (os_path_join output_dir (element_name i))) w2.
Proof.
  intros Hseg c Hc. unfold segment_visual_elements, try_except in Hseg.
  destruct (segment_body image_path w) as [[[image0 contours0]|e] w1] eqn:Hbody.
  - injection Hseg as -> -> ->.
    apply segment_body_inv in Hbody
      as (gray & retval & binary & found & hierarchy
          & _ & Hgray & Hbin & Hfound & Hloop).
    destruct image as [img|];
      [|destruct (cvtColor_None cv2.COLOR_BGR2GRAY) as [e He]; congruence].
    apply cvtColor_shape in Hgray as [Hgw Hgh].
    apply threshold_shape in Hbin as [Hbw Hbh].
    destruct (filter_loop_subset _ _ _ _ _ Hloop c Hc) as [Hnil|Hin];
      [by apply elem_of_nil in Hnil|].
    pose proof (findContours_inside _ _ _ _ _ Hfound c Hin) as Hinside.
    rewrite Hbw, Hgw, Hbh, Hgh in Hinside.
    destruct (bounding_rect c) as [[[x y] bw] bh] eqn:Hrect.
    assert (cv2_boundingRect c = Return (x, y, bw, bh)) as Hbox.
    { rewrite boundingRect_spec, Hrect by apply Hinside. done. }
    pose proof (bounding_rect_inside _ _ c _ _ _ _ Hinside Hrect)
      as (Hx & Hy & Hxw & Hyh & Hw & Hh).
    exists img, x, y, bw, bh. repeat split; try done.
    + unfold height, ndarray_slice in *. rewrite length_fmap.
      unfold py_slice, slice_index.
      destruct (Z.ltb_spec y 0), (Z.ltb_spec (y + bh) 0); try lia.
      rewrite length_take, length_drop. lia.
    + intros output_dir i w2. unfold save_one, mbind, M_bind, call, crop.
      by rewrite Hbox.
  - unfold mbind, M_bind, st_error, st_emit, mret, M_ret in Hseg.
    injection Hseg as _ <- _. by apply elem_of_nil in Hc.
Qed.

(** C9.  When the output directory is absent (and [os.makedirs] does not
    fail), [save_visual_elements] creates it whatever the contours are: the
    directory exists when the call is over, be the list empty, be every
    crop written, or be the loop cut short by an exception.  With no
    contour, creating the directory is all the call does. *)
Theorem output_dir_created_without_contours
    (contract : FsContract cv os) image contours output_dir w fs1 :
  os_path_exists output_dir (fs w) = false →
  os_makedirs output_dir (fs w) = (Return tt, fs1) →
  os_path_exists output_dir
    (fs (save_visual_elements image contours output_dir w).2) = true
  ∧ save_visual_elements image [] output_dir w = (Return [], mkWorld fs1 (ui w)).
Proof.
  intros Habsent Hmk.
  assert (ensure_dir output_dir w = (Return tt, mkWorld fs1 (ui w))) as Hdir.
  { unfold ensure_dir, mbind, M_bind, call_read, call_fs.
    rewrite Habsent. simpl. by rewrite Hmk. }
  split.
  - unfold save_visual_elements, try_except, save_body.
    rewrite (run_bind _ _ _ _ _ Hdir).
    pose proof (save_loop_keeps image output_dir contours 0 []
                  (mkWorld fs1 (ui w)) output_dir
                  (makedirs_creates _ _ _ Hmk)) as Hkeep.
    by destruct (save_loop image output_dir 0 contours [] _) as [[paths|e] w1].
  - unfold save_visual_elements, save_body. apply run_try_return.
    by rewrite (run_bind _ _ _ _ _ Hdir).
Qed.

(** C10.  [generate_html] puts each path between the quotes of its
    [<img src="..." />] tag as it is, with no escaping; so there is a path,
    holding a double quote and angle brackets, for which the report no
    longer reads back as the intended tags, just as there is such a text. *)
Theorem paths_interpolated_unescaped :
  (∀ text earlier path later w,
     generate_html text (earlier ++ path :: later) w
     = (Return (("<html><body><p>" +:+ text +:+ "</p>" +:+ img_tags earlier)
                +:+ ("<img src=" +:+ dquote +:+ path +:+ dquote +:+ " />")
                +:+ (img_tags later +:+ "</body></html>")), w))
  ∧ (has_markup hostile_path = true
     ∧ ∀ w, ∃ html,
         generate_html EmptyString [hostile_path] w = (Return html, w)
         ∧ html_tags html ≠ report_tags [hostile_path])
  ∧ (has_markup hostile_text = true
     ∧ ∀ w, ∃ html,
         generate_html hostile_text [] w = (Return html, w)
         ∧ html_tags html ≠ report_tags []).
Proof.
  split; [|split; split; [done| |done|]].
  - intros. rewrite generate_html_run. do 2 f_equal. unfold html_doc.
    assert (∀ l1 l2, img_tags (l1 ++ l2) = img_tags l1 +:+ img_tags l2) as Happ.
    { intros l1 l2. induction l1 as [|p l1 IH]; [done|].
      cbn [app img_tags]. by rewrite IH, string_app_assoc. }
    rewrite Happ. cbn [img_tags]. unfold img_tag. by norm_strings.
  - intros w. exists (html_doc EmptyString [hostile_path]).
    split; [apply generate_html_run | by vm_compute].
  - intros w. exists (html_doc hostile_text []).
    split; [apply generate_html_run | by vm_compute].
Qed.

End claims.

(** ** The specified failure policy against the code *)

Section failure_policy.
Context {FS : Type} {cv : Cv2 FS} {os : Os FS}.

(** Where the loop returns, the specified list is the returned one. *)
Lemma written_before_failure_return image output_dir contours i acc
    (w : World FS) paths w' :
  save_loop image output_dir i contours acc w = (Return paths, w') →
  written_before_failure image output_dir i contours acc w = paths.
Proof.
  revert i acc w. induction contours as [|c contours IH]; intros i acc w; simpl.
  - unfold mret, M_ret. by intros [= <- _].
  - unfold mbind, M_bind.
    destruct (save_one image output_dir i c w) as [[p|e] w1]; [|done].
    apply IH.
Qed.

(** When nothing fails, the code does what the specification says. *)
Lemma spec_materialize_without_failure image contours output_dir
    (w : World FS) paths w' :
  save_body image contours output_dir w = (Return paths, w') →
  (save_visual_elements image contours output_dir w).1
  = Return (spec_materialize image contours output_dir w).
Proof.
  intros Hbody. rewrite (save_ok _ _ _ _ _ _ Hbody). simpl. f_equal.
  unfold spec_materialize. unfold save_body, mbind, M_bind in Hbody.
  destruct (ensure_dir output_dir w) as [[[]|] w1]; [|done].
  symmetry. by apply written_before_failure_return in Hbody.
Qed.

End failure_policy.

(** ** Concrete runs *)

Section three_regions_run.
#[local] Existing Instance Fake.three_regions.

(** C1, as the specification states it, fails.  Of two contours the second
    has its box outside the picture: the first crop is written, the second
    crop has no pixel and [cv2.imwrite] raises on it.  The specified result
    is the list holding the first path; the code returns the empty list,
    though the first file is on the disk. *)
Lemma materialize_partial_results_lost :
  (∃ e w', save_body (Some Fake.picture) [Fake.big; Fake.far] "output_elements"
             (Fake.start Fake.disk) = (Raise e, w')
           ∧ Fake.lookup_file "output_elements/element_0.png" (Fake.files (fs w'))
             ≠ None)
  ∧ spec_materialize (Some Fake.picture) [Fake.big; Fake.far] "output_elements"
      (Fake.start Fake.disk)
    = ["output_elements/element_0.png"]
  ∧ (save_visual_elements (Some Fake.picture) [Fake.big; Fake.far]
       "output_elements" (Fake.start Fake.disk)).1
    = Return []
  ∧ (save_visual_elements (Some Fake.picture) [Fake.big; Fake.far]
       "output_elements" (Fake.start Fake.disk)).1
    ≠ Return (spec_materialize (Some Fake.picture) [Fake.big; Fake.far]
                "output_elements" (Fake.start Fake.disk)).
Proof.
  split; [|split; [|split]].
  - do 2 eexists. split; [vm_compute; reflexivity | by vm_compute].
  - by vm_compute.
  - by vm_compute.
  - by vm_compute.
Qed.

(** The amended C1 inside the processing block, on a disk where the output
    directory cannot be made: the report has the text and no image. *)
Lemma materialize_failure_returns_nothing_witness :
  (main_process Fake.readable "temp_scan.png" (Fake.start Fake.locked_disk)).1
  = Return "<html><body><p>hello</p></body></html>".
Proof.
  eassert (save_body (Some Fake.picture) [Fake.big; Fake.other] "output_elements"
             (text_shown "hello" (Fake.start Fake.locked_disk))
           = (Raise _, _)) as Hbody by (vm_compute; reflexivity).
  destruct (materialize_failure_returns_nothing
              (tess := Fake.pytesseract) (st := Fake.streamlit) _ _ _ _ _
              Fake.readable "temp_scan.png" (Fake.start Fake.locked_disk)
              "hello" (Fake.start Fake.locked_disk)
              Hbody
              ltac:(vm_compute; reflexivity) ltac:(vm_compute; reflexivity))
    as [_ [w4 Hrun]].
  rewrite Hrun. reflexivity.
Defined.


End three_regions_run.

Section two_regions_run.
#[local] Existing Instance Fake.two_regions.

(** C2 on a picture with a 2500 and a 500 region: only the first is kept. *)
Lemma segment_keeps_area_above_1000_witness :
  (segment_visual_elements "temp_scan.png" (Fake.start Fake.disk)).1
  = Return (Some Fake.picture, [Fake.big]).
Proof.
  destruct (segment_keeps_area_above_1000
              (cv := Fake.two_regions)
              "temp_scan.png" (Fake.start Fake.disk) (Some Fake.picture)
              _ _ _ [Fake.big; Fake.small] [] Fake.contour_area
              ltac:(reflexivity) ltac:(reflexivity) ltac:(reflexivity)
              ltac:(vm_compute; reflexivity) ltac:(reflexivity))
    as (survivors & Hrun & _ & Hone).
  rewrite Hrun. simpl. do 2 f_equal.
  apply (Hone Fake.big Fake.small); [reflexivity | reflexivity | by left].
Defined.


(** C4 on a path no picture can be read from. *)
Lemma segment_failure_gives_nothing_witness :
  (main_process Fake.readable "missing.png" (Fake.start Fake.disk)).1
  = Return "<html><body><p>hello</p></body></html>".
Proof.
  eassert (segment_body "missing.png" (text_shown "hello" (Fake.start Fake.disk))
           = (Raise _, _)) as Hbody by (vm_compute; reflexivity).
  destruct (segment_failure_gives_nothing
              (tess := Fake.pytesseract) _ _ _ _
              Fake.readable (Fake.start Fake.disk) "hello" (Fake.start Fake.disk)
              Hbody ltac:(reflexivity) ltac:(reflexivity))
    as (w2 & _ & _ & w4 & Hrun).
  rewrite Hrun. reflexivity.
Defined.

(** C5 on two contours and a disk that refuses nothing. *)
Lemma materialize_paths_by_index_witness :
  (save_visual_elements (Some Fake.picture) [Fake.big; Fake.other]
     "output_elements" (Fake.start Fake.disk)).1
  = Return ["output_elements/element_0.png"; "output_elements/element_1.png"].
Proof.
  destruct (materialize_paths_by_index
              (cv := Fake.two_regions) (os := Fake.os)
              (Some Fake.picture) [Fake.big; Fake.other]
              "output_elements" (Fake.start Fake.disk)
              ltac:(intros e; vm_compute; discriminate))
    as (paths & Hrun & _ & _ & Hpaths & _).
  rewrite Hrun, Hpaths. vm_compute. reflexivity.
Defined.

(** C8 on the large region of the picture. *)
Lemma bounding_boxes_within_image_witness :
  ∃ img x y bw bh,
    Some Fake.picture = Some img
    ∧ cv2_boundingRect Fake.big = Return (x, y, bw, bh)
    ∧ 0 ≤ x ∧ 0 ≤ y
    ∧ x + bw ≤ width img ∧ y + bh ≤ height img
    ∧ bw > 0 ∧ bh > 0
    ∧ height (ndarray_slice img y (y + bh) x (x + bw)) = bh
    ∧ ∀ output_dir i w2,
        save_one (Some Fake.picture) output_dir i Fake.big w2
        = (call_fs (cv2_imwrite (os_path_join output_dir (element_name i))
                      (ndarray_slice img y (y + bh) x (x + bw)));;
           mret (os_path_join output_dir (element_name i))) w2.
Proof.
  apply (bounding_boxes_within_image
           (cv := Fake.two_regions) (os := Fake.os)
           (fake_cv2_contract [Fake.big; Fake.small])
           "temp_scan.png" (Fake.start Fake.disk)
           (Some Fake.picture) [Fake.big] (Fake.start Fake.disk)).
  - vm_compute. reflexivity.
  - left.
Defined.

(** C9 on a disk without the output directory. *)
Lemma output_dir_created_without_contours_witness :
  os_path_exists "output_elements"
    (fs (save_visual_elements (Some Fake.picture) [Fake.big] "output_elements"
           (Fake.start Fake.disk)).2) = true
  ∧ save_visual_elements (Some Fake.picture) [] "output_elements"
      (Fake.start Fake.disk)
    = (Return [],
       mkWorld (Fake.mkDisk [("temp_scan.png", Fake.picture)]
                  ["output_elements"] []) []).
Proof.
  apply (output_dir_created_without_contours
           (cv := Fake.two_regions) (os := Fake.os)
           (fake_fs_contract [Fake.big; Fake.small])
           (Some Fake.picture) [Fake.big] "output_elements"
           (Fake.start Fake.disk)).
  - reflexivity.
  - reflexivity.
Defined.

End two_regions_run.

(** ** Beyond the claims: the stages *)

Section more_on_stages.
Context {PilImage FS : Type}.
Context {tess : Pytesseract PilImage FS} {cv : Cv2 FS} {os : Os FS}.
Context {st : Streamlit FS}.

Implicit Types (w : World FS) (image : option (ndarray Pixel)).

(** The filtering loop touches nothing, and what it returns is the list it
    was given followed by some of the contours, in their order. *)
Lemma filter_loop_frame contours filtered w :
  (filter_loop contours filtered w).2 = w.
Proof.
  revert filtered. induction contours as [|c contours IH]; intros filtered; [done|].
  simpl. unfold mbind, M_bind, call.
  destruct (cv2_contourArea c) as [a|]; [|done].
  destruct (area_gt_1000 a); apply IH.
Qed.

Lemma filter_loop_sublist contours filtered w result w' :
  filter_loop contours filtered w = (Return result, w') →
  ∃ kept, result = filtered ++ kept ∧ kept `sublist_of` contours.
Proof.
  revert filtered. induction contours as [|c contours IH]; intros filtered; simpl.
  - unfold mret, M_ret. intros [= <- _]. exists []. by rewrite app_nil_r.
  - unfold mbind, M_bind, call.
    destruct (cv2_contourArea c) as [a|]; [|done].
    destruct (area_gt_1000 a); intros (kept & -> & Hsub)%IH.
    + exists (c :: kept). rewrite <- app_assoc. split; [done|]. by constructor.
    + exists kept. split; [done|]. by constructor.
Qed.

Lemma segment_body_frame image_path w : (segment_body image_path w).2 = w.
Proof.
  unfold segment_body, mbind, M_bind, call, call_read.
  destruct (cv2_imread image_path (fs w)) as [image|]; [|done].
  destruct (cv2_cvtColor image _) as [gray|]; [|done].
  destruct (cv2_threshold gray _ _ _) as [[retval binary]|]; [|done].
  destruct (cv2_findContours binary _ _) as [[found hierarchy]|]; [|done].
  pose proof (filter_loop_frame found [] w) as Hframe.
  destruct (filter_loop found [] w) as [[filtered|] w1]; simpl in *; by subst.
Qed.

(** X1.  The contours [segment_visual_elements] returns are contours that
    [cv2.findContours] found in the thresholded image, in the order in which
    it found them: nothing is added, reordered or repeated. *)
Theorem segment_keeps_found_order image_path w image contours w' :
  segment_visual_elements image_path w = (Return (image, contours), w') →
  contours ≠ [] →
  ∃ gray retval binary found hierarchy,
    cv2_imread image_path (fs w) = Return image
    ∧ cv2_cvtColor image cv2.COLOR_BGR2GRAY = Return gray
    ∧ cv2_threshold gray 128 255 (cv2.THRESH_BINARY_INV + cv2.THRESH_OTSU)
      = Return (retval, binary)
    ∧ cv2_findContours binary cv2.RETR_EXTERNAL cv2.CHAIN_APPROX_SIMPLE
      = Return (found, hierarchy)
    ∧ contours `sublist_of` found
    ∧ (length contours ≤ length found)%nat.
Proof.
  intros Hseg Hne. unfold segment_visual_elements, try_except in Hseg.
  destruct (segment_body image_path w) as [[[image0 contours0]|e] w1] eqn:Hbody.
  - injection Hseg as -> -> ->.
    apply segment_body_inv in Hbody
      as (gray & retval & binary & found & hierarchy
          & Hread & Hgray & Hbin & Hfound & Hloop).
    apply filter_loop_sublist in Hloop as (kept & -> & Hsub).
    exists gray, retval, binary, found, hierarchy.
    repeat split; try done. by apply sublist_length.
  - unfold mbind, M_bind, st_error, st_emit, mret, M_ret in Hseg.
    by injection Hseg as _ <- _.
Qed.

(** X2.  [segment_visual_elements] only reads: whatever the collaborators
    do, the file system after the call is the one before it, and the UI log
    is either untouched (the stage returned what its body computed) or one
    error notice longer (the stage returned [(None, [])]). *)
Theorem segment_reads_only image_path w :
  (∃ image contours,
     segment_body image_path w = (Return (image, contours), w)
     ∧ segment_visual_elements image_path w = (Return (image, contours), w))
  ∨ (∃ e,
       segment_body image_path w = (Raise e, w)
       ∧ segment_visual_elements image_path w
         = (Return (None, []),
            mkWorld (fs w)
              (ui w ++ [UiError ("An error occurred while segmenting visual elements: "
                                 +:+ exn_str e)]))).
Proof.
  pose proof (segment_body_frame image_path w) as Hframe.
  destruct (segment_body image_path w) as [[[image contours]|e] w1] eqn:Hbody;
    simpl in Hframe; subst w1.
  - left. exists image, contours. split; [done|].
    unfold segment_visual_elements. by apply run_try_return.
  - right. exists e. split; [done|]. by apply segment_failed.
Qed.

(** The directory check leaves the UI log alone. *)
Lemma ensure_dir_ui output_dir w : ui (ensure_dir output_dir w).2 = ui w.
Proof.
  unfold ensure_dir, mbind, M_bind, call_read, call_fs.
  destruct (negb (os_path_exists output_dir (fs w))); [|done].
  by destruct (os_makedirs output_dir (fs w)) as [[[]|] fs1].
Qed.

(** Without an image no turn of the loop gets as far as writing. *)
Lemma save_one_missing_image output_dir i c w :
  ∃ e, save_one None output_dir i c w = (Raise e, w).
Proof.
  unfold save_one, mbind, M_bind, call.
  destruct (cv2_boundingRect c) as [[[[x y] bw] bh]|e]; eexists; reflexivity.
Qed.

(** X3.  With a missing image ([None]) and at least one contour,
    [save_visual_elements] writes no crop at all: after the directory check
    the first turn of the loop raises, the call reports one error and returns
    the empty list. *)
Theorem save_missing_image_writes_nothing contours output_dir w :
  contours ≠ [] →
  ∃ notice,
    save_visual_elements None contours output_dir w
    = (Return [],
       mkWorld (fs (ensure_dir output_dir w).2) (ui w ++ [UiError notice])).
Proof.
  intros Hne. destruct contours as [|c contours]; [done|].
  pose proof (ensure_dir_ui output_dir w) as Hui.
  unfold save_visual_elements, try_except, save_body, mbind, M_bind.
  destruct (ensure_dir output_dir w) as [[[]|e] w1]; simpl in Hui.
  - simpl. unfold mbind, M_bind.
    destruct (save_one_missing_image output_dir 0 c w1) as [e ->].
    unfold st_error, st_emit, mret, M_ret. simpl. rewrite Hui. by eexists.
  - unfold st_error, st_emit, mret, M_ret. simpl. rewrite Hui. by eexists.
Qed.

End more_on_stages.

(** ** Beyond the claims: materialization *)

Lemma string_length_app (a b : string) :
  String.length (a +:+ b) = (String.length a + String.length b)%nat.
Proof.
  induction a as [|ch a IH]; [done|].
  rewrite string_app_cons. simpl. by rewrite IH.
Qed.

Lemma string_app_cancel_r (a b s : string) : a +:+ s = b +:+ s → a = b.
Proof.
  revert b. induction a as [|ch a IH]; intros [|ch' b] Heq; [done| | |].
  - apply (f_equal String.length) in Heq.
    rewrite string_app_nil_l, string_length_app in Heq. simpl in Heq. lia.
  - apply (f_equal String.length) in Heq.
    rewrite string_app_nil_l, string_length_app in Heq. simpl in Heq. lia.
  - rewrite !string_app_cons in Heq. injection Heq as -> Heq.
    f_equal. by apply IH.
Qed.

Lemma element_name_inj (i j : nat) : element_name i = element_name j → i = j.
Proof.
  unfold element_name. intros Heq.
  apply (inj (String.append "element_")) in Heq.
  apply string_app_cancel_r in Heq.
  by apply (inj pretty) in Heq.
Qed.

(** X6.  The file names of line 53 tell the indices apart: for different
    indices [i] and [j], [element_<i>.png] and [element_<j>.png] are
    different names. *)
Theorem element_names_differ (i j : nat) : i ≠ j → element_name i ≠ element_name j.
Proof. intros Hne Heq. by apply Hne, element_name_inj. Qed.

(** A slice with bounds inside the list is the plain segment. *)
Lemma py_slice_inside {A} (l : list A) (a b : Z) :
  0 ≤ a → a ≤ b → b ≤ Z.of_nat (length l) →
  py_slice l a b = take (Z.to_nat (b - a)) (drop (Z.to_nat a) l).
Proof.
  intros Ha Hab Hb. unfold py_slice, slice_index.
  destruct (Z.ltb_spec a 0), (Z.ltb_spec b 0); try lia.
  by rewrite !Z.min_l by lia.
Qed.

Lemma py_slice_inside_length {A} (l : list A) (a b : Z) :
  0 ≤ a → a ≤ b → b ≤ Z.of_nat (length l) →
  Z.of_nat (length (py_slice l a b)) = b - a.
Proof.
  intros Ha Hab Hb. rewrite py_slice_inside by done.
  rewrite length_take, length_drop. lia.
Qed.

Lemma py_slice_inside_lookup {A} (l : list A) (a b i : Z) :
  0 ≤ a → a ≤ b → b ≤ Z.of_nat (length l) → 0 ≤ i < b - a →
  py_slice l a b !! Z.to_nat i = l !! Z.to_nat (a + i).
Proof.
  intros Ha Hab Hb Hi. rewrite py_slice_inside by done.
  rewrite lookup_take_lt by lia. rewrite lookup_drop. f_equal. lia.
Qed.

Section more_on_materialization.
Context {FS : Type} {cv : Cv2 FS} {os : Os FS}.

Implicit Types (w : World FS) (image : option (ndarray Pixel)).

(** When the directory is there, the body of the [try] is the loop alone. *)
Lemma save_body_existing_dir image contours output_dir w :
  os_path_exists output_dir (fs w) = true →
  save_body image contours output_dir w = save_loop image output_dir 0 contours [] w.
Proof.
  intros Hdir. unfold save_body, ensure_dir, mbind, M_bind, call_read.
  by rewrite Hdir.
Qed.

(** X4.  An output directory that exists is neither made again nor lost:
    [save_visual_elements] then skips [os.makedirs], the directory still
    exists when the call is over (whatever happened to the crops), and with
    no contour the call changes nothing at all. *)
Theorem existing_output_dir_is_kept
    (contract : FsContract cv os) image contours output_dir w :
  os_path_exists output_dir (fs w) = true →
  save_body image contours output_dir w = save_loop image output_dir 0 contours [] w
  ∧ os_path_exists output_dir
      (fs (save_visual_elements image contours output_dir w).2) = true
  ∧ save_visual_elements image [] output_dir w = (Return [], w).
Proof.
  intros Hdir. split; [by apply save_body_existing_dir|]. split.
  - unfold save_visual_elements, try_except.
    rewrite save_body_existing_dir by done.
    pose proof (save_loop_keeps image output_dir contours 0 [] w output_dir Hdir)
      as Hkeep.
    by destruct (save_loop image output_dir 0 contours [] w) as [[paths|e] w1].
  - unfold save_visual_elements. apply run_try_return.
    by rewrite save_body_existing_dir.
Qed.

(** The loop when every write fails in silence. *)
Lemma save_loop_silent_writes arr output_dir contours i acc w :
  (∀ path img fs0, cv2_imwrite path img fs0 = (Return false, fs0)) →
  (∀ c, c ∈ contours → ∃ rect, cv2_boundingRect c = Return rect) →
  save_loop (Some arr) output_dir i contours acc w
  = (Return (acc ++ element_paths_from output_dir i (length contours)), w).
Proof.
  intros Hwrite. revert i acc.
  induction contours as [|c contours IH]; intros i acc Hrect.
  - simpl. by rewrite app_nil_r.
  - destruct (Hrect c ltac:(left)) as [[[[x y] bw] bh] Hc].
    simpl. unfold mbind at 1, M_bind at 1.
    unfold save_one, mbind, M_bind, call, crop, mret, M_ret, call_fs.
    rewrite Hc, Hwrite. destruct w as [f u]. simpl.
    fold (@mbind (M FS) _). 
    rewrite IH by (intros; apply Hrect; by right).
    by rewrite <- app_assoc.
Qed.

(** X5.  [save_visual_elements] does not look at what [cv2.imwrite]
    returns: when every write fails without raising (the call returns
    [False]) the stage still returns one path per contour and reports no
    error, although the file system is as it was and none of the returned
    paths names a file that was written. *)
Theorem save_ignores_imwrite_result arr contours output_dir w :
  (∀ path img fs0, cv2_imwrite path img fs0 = (Return false, fs0)) →
  (∀ c, c ∈ contours → ∃ rect, cv2_boundingRect c = Return rect) →
  os_path_exists output_dir (fs w) = true →
  save_visual_elements (Some arr) contours output_dir w
  = (Return (element_paths_from output_dir 0 (length contours)), w).
Proof.
  intros Hwrite Hrect Hdir. unfold save_visual_elements. apply run_try_return.
  rewrite save_body_existing_dir by done.
  by rewrite (save_loop_silent_writes arr output_dir contours 0 [] w Hwrite Hrect).
Qed.

(** X7.  No path occurs twice in what [save_visual_elements] returns,
    provided [os.path.join] with the output directory keeps different names
    apart: two crops of one call never share a file. *)
Theorem save_paths_distinct image contours output_dir w paths w' :
  (∀ a b, os_path_join output_dir a = os_path_join output_dir b → a = b) →
  save_visual_elements image contours output_dir w = (Return paths, w') →
  NoDup paths.
Proof.
  intros Hjoin Hsave. unfold save_visual_elements, try_except in Hsave.
  destruct (save_body image contours output_dir w) as [[paths0|e] w1] eqn:Hbody.
  - injection Hsave as -> ->.
    unfold save_body, mbind, M_bind in Hbody.
    destruct (ensure_dir output_dir w) as [[[]|] w2]; [|done].
    apply save_loop_paths in Hbody as ->. simpl.
    unfold element_paths_from. apply NoDup_fmap_2_strong; [|apply NoDup_seq].
    intros i j _ _ Heq. by apply element_name_inj, Hjoin.
  - unfold mbind, M_bind, st_error, st_emit, mret, M_ret in Hsave.
    injection Hsave as <- _. constructor.
Qed.

(** X8.  For a box inside a rectangular image, the crop of line 52 is the
    box: it has [h] rows of [w] pixels, and its pixel at row [r], column [c]
    is the image's pixel at row [y + r], column [x + c].  Nothing is clamped
    and nothing wraps around. *)
Theorem crop_is_the_box arr x y bw bh w :
  rectangular arr →
  0 ≤ x → 0 ≤ y → 0 < bw → 0 < bh →
  x + bw ≤ width arr → y + bh ≤ height arr →
  ∃ visual_element,
    crop (Some arr) x y bw bh w = (Return visual_element, w)
    ∧ height visual_element = bh
    ∧ width visual_element = bw
    ∧ rectangular visual_element
    ∧ ∀ r c, 0 ≤ r < bh → 0 ≤ c < bw →
        pixel_at visual_element r c = pixel_at arr (y + r) (x + c).
Proof.
  intros Hrect Hx Hy Hbw Hbh Hxw Hyh.
  exists (ndarray_slice arr y (y + bh) x (x + bw)). split; [done|].
  unfold height in Hyh.
  assert (∀ row, row ∈ py_slice arr y (y + bh) → x + bw ≤ Z.of_nat (length row))
    as Hrows.
  { intros row Hrow. rewrite py_slice_inside in Hrow by lia.
    apply subseteq_take, subseteq_drop in Hrow. by rewrite Hrect. }
  assert (∀ row, row ∈ ndarray_slice arr y (y + bh) x (x + bw) →
                 Z.of_nat (length row) = bw) as Hwidth.
  { intros row (row0 & -> & Hrow0)%list_elem_of_fmap.
    rewrite py_slice_inside_length by (try apply Hrows; done || lia). lia. }
  assert (height (ndarray_slice arr y (y + bh) x (x + bw)) = bh) as Hheight.
  { unfold height, ndarray_slice. rewrite length_fmap.
    rewrite py_slice_inside_length by lia. lia. }
  assert (width (ndarray_slice arr y (y + bh) x (x + bw)) = bw) as Hw.
  { unfold width, height in *.
    destruct (ndarray_slice arr y (y + bh) x (x + bw)) as [|row rest] eqn:Hcrop.
    - simpl in Hheight. lia.
    - simpl. apply Hwidth. left. }
  repeat split; try done.
  - intros row Hrow. rewrite Hw. by apply Hwidth.
  - intros r c Hr Hc. unfold pixel_at, ndarray_slice, ndarray in *.
    rewrite list_lookup_fmap.
    rewrite (py_slice_inside_lookup arr y (y + bh) r) by lia.
    destruct (arr !! Z.to_nat (y + r)) as [row|] eqn:Hrow; [|done]. simpl.
    apply py_slice_inside_lookup; try lia.
    rewrite Hrect; [lia|]. by eapply list_elem_of_lookup_2.
Qed.

End more_on_materialization.

(** ** Beyond the claims: the processing block and cleanup *)

Section more_on_main.
Context {PilImage FS : Type}.
Context {tess : Pytesseract PilImage FS} {cv : Cv2 FS} {os : Os FS}.
Context {st : Streamlit FS}.
Context {rm : OsRemove FS}.

Implicit Types (w : World FS) (image : option (ndarray Pixel)).

(** The block up to the heading of the elements. *)
Lemma main_block_stages (pil : PilImage) image_path w0
    text w1 image contours w2 paths w3 :
  extract_text pil w0 = (Return text, w1) →
  segment_visual_elements image_path (text_shown text w1)
    = (Return (image, contours), w2) →
  save_visual_elements image contours "output_elements" w2 = (Return paths, w3) →
  main_block pil image_path w0
  = (for_each paths st_image;;
     html_content ← generate_html text paths;
     st_download_button "Download HTML" html_content "output.html" "text/html";;
     mret (html_content, paths)) (elements_heading w3).
Proof.
  intros Htext Hseg Hsave. unfold main_block.
  rewrite (run_bind _ _ _ _ _ Htext).
  unfold st_subheader, st_write, st_code.
  do 3 (erewrite run_bind by reflexivity).
  simpl. repeat rewrite <- app_assoc. simpl.
  change (mkWorld (fs w1) _) with (text_shown text w1).
  rewrite (run_bind _ _ _ _ _ Hseg).
  rewrite (run_bind _ _ _ _ _ Hsave).
  by erewrite run_bind by reflexivity.
Qed.

Lemma main_block_run_shown (pil : PilImage) image_path w0
    text w1 image contours w2 paths w3 w4 :
  extract_text pil w0 = (Return text, w1) →
  segment_visual_elements image_path (text_shown text w1)
    = (Return (image, contours), w2) →
  save_visual_elements image contours "output_elements" w2 = (Return paths, w3) →
  for_each paths st_image (elements_heading w3) = (Return tt, w4) →
  main_block pil image_path w0
  = (Return (html_doc text paths, paths),
     mkWorld (fs w4)
       (ui w4 ++ [UiDownloadButton "Download HTML" (html_doc text paths)
                    "output.html" "text/html"])).
Proof.
  intros Htext Hseg Hsave Hshow.
  rewrite (main_block_stages _ _ _ _ _ _ _ _ _ _ Htext Hseg Hsave).
  rewrite (run_bind _ _ _ _ _ Hshow).
  erewrite run_bind by apply generate_html_run.
  by erewrite run_bind by reflexivity.
Qed.

Lemma main_block_run_raise (pil : PilImage) image_path w0
    text w1 image contours w2 paths w3 e w4 :
  extract_text pil w0 = (Return text, w1) →
  segment_visual_elements image_path (text_shown text w1)
    = (Return (image, contours), w2) →
  save_visual_elements image contours "output_elements" w2 = (Return paths, w3) →
  for_each paths st_image (elements_heading w3) = (Raise e, w4) →
  main_block pil image_path w0 = (Raise e, w4).
Proof.
  intros Htext Hseg Hsave Hshow.
  rewrite (main_block_stages _ _ _ _ _ _ _ _ _ _ Htext Hseg Hsave).
  by rewrite (run_bind_raise _ _ _ _ _ Hshow).
Qed.


(** The stages of one run of the block. *)
Lemma block_stages (pil : PilImage) image_path w0 :
  ∃ text w1 image contours w2 paths w3,
    extract_text pil w0 = (Return text, w1)
    ∧ segment_visual_elements image_path (text_shown text w1)
      = (Return (image, contours), w2)
    ∧ save_visual_elements image contours "output_elements" w2
      = (Return paths, w3).
Proof.
  destruct (extract_text_returns pil w0) as (text & w1 & Htext).
  destruct (segment_returns image_path (text_shown text w1))
    as (image & contours & w2 & Hseg).
  destruct (save_returns image contours "output_elements" w2)
    as (paths & w3 & Hsave).
  by exists text, w1, image, contours, w2, paths, w3.
Qed.

(** [main_block] is [main_process] with the paths kept. *)
Lemma main_process_of_block (pil : PilImage) image_path w0 :
  main_process pil image_path w0
  = (main_block pil image_path ≫= λ locals, mret locals.1) w0.
Proof.
  destruct (block_stages pil image_path w0)
    as (text & w1 & image & contours & w2 & paths & w3 & Htext & Hseg & Hsave).
  destruct (for_each paths st_image (elements_heading w3)) as [[[]|e] w4] eqn:Hshow.
  - rewrite (main_process_run_shown _ _ _ _ _ _ _ _ _ _ _ Htext Hseg Hsave Hshow).
    by rewrite (run_bind _ _ _ _ _
                  (main_block_run_shown _ _ _ _ _ _ _ _ _ _ _ Htext Hseg Hsave Hshow)).
  - rewrite (main_process_run_raise _ _ _ _ _ _ _ _ _ _ _ _ Htext Hseg Hsave Hshow).
    by rewrite (run_bind_raise _ _ _ _ _
                  (main_block_run_raise _ _ _ _ _ _ _ _ _ _ _ _ Htext Hseg Hsave Hshow)).
Qed.

(** X9.  The only exceptions that escape the processing block of [main] are
    those of [st.image]: text extraction, segmentation and materialization
    always return.  Either every returned path is shown, in order, and the
    block returns the report built from the text and these paths, after
    handing this very report to the download button as [output.html]; or
    [st.image] raises on one of the paths, the block raises that exception
    with only the pictures before it shown, and no download button is
    offered.  After materialization the file system is not touched. *)
Theorem processing_block_fails_only_at_display (pil : PilImage) image_path w0 :
  ∃ text w1 image contours w2 paths w3,
    extract_text pil w0 = (Return text, w1)
    ∧ segment_visual_elements image_path (text_shown text w1)
      = (Return (image, contours), w2)
    ∧ save_visual_elements image contours "output_elements" w2
      = (Return paths, w3)
    ∧ (main_process pil image_path w0
         = (Return (html_doc text paths),
            mkWorld (fs w3)
              (ui w3 ++ [UiSubheader "Visual Elements"] ++ (UiImage <$> paths)
                    ++ [UiDownloadButton "Download HTML" (html_doc text paths)
                          "output.html" "text/html"]))
       ∨ ∃ shown path rest e,
           paths = shown ++ path :: rest
           ∧ streamlit_open_image path (fs w3) = Raise e
           ∧ main_process pil image_path w0
             = (Raise e,
                mkWorld (fs w3)
                  (ui w3 ++ [UiSubheader "Visual Elements"]
                        ++ (UiImage <$> shown)))).
Proof.
  destruct (block_stages pil image_path w0)
    as (text & w1 & image & contours & w2 & paths & w3 & Htext & Hseg & Hsave).
  exists text, w1, image, contours, w2, paths, w3. repeat split; try done.
  destruct (show_elements_cases paths (elements_heading w3))
    as [Hall | (shown & path & rest & e & Hpaths & Hraise & Hshow)].
  - left.
    rewrite (main_process_run_shown _ _ _ _ _ _ _ _ _ _ _ Htext Hseg Hsave Hall).
    unfold elements_heading. cbn [fs ui]. by rewrite <- !app_assoc.
  - right. exists shown, path, rest, e. split; [done|]. split; [done|].
    rewrite (main_process_run_raise _ _ _ _ _ _ _ _ _ _ _ _ Htext Hseg Hsave Hshow).
    unfold elements_heading. cbn [fs ui]. by rewrite <- !app_assoc.
Qed.

(** *** Cleanup *)

Lemma remove_each_cons p paths w :
  remove_each (p :: paths) w
  = match os_remove p (fs w) with
    | (Return _, fs1) => remove_each paths (mkWorld fs1 (ui w))
    | (Raise e, fs1) => (Raise e, mkWorld fs1 (ui w))
    end.
Proof.
  unfold remove_each. simpl. unfold mbind, M_bind, call_fs.
  by destruct (os_remove p (fs w)) as [[[]|e] fs1].
Qed.

Lemma remove_each_ui paths w : ui (remove_each paths w).2 = ui w.
Proof.
  revert w. induction paths as [|p paths IH]; intros w; [done|].
  rewrite remove_each_cons.
  destruct (os_remove p (fs w)) as [[[]|e] fs1]; [|done].
  by rewrite IH.
Qed.

Lemma remove_each_creates_nothing `{!RemoveContract os rm} paths w other :
  os_path_exists other (fs w) = false →
  os_path_exists other (fs (remove_each paths w).2) = false.
Proof.
  revert w. induction paths as [|p paths IH]; intros w Hgone; [done|].
  rewrite remove_each_cons.
  pose proof (remove_creates_nothing p (fs w) other Hgone) as Hstep.
  destruct (os_remove p (fs w)) as [[[]|e] fs1]; [|done].
  by apply IH.
Qed.

Lemma remove_each_gone `{!RemoveContract os rm} paths w w' :
  remove_each paths w = (Return tt, w') →
  ∀ p, p ∈ paths → os_path_exists p (fs w') = false.
Proof.
  revert w. induction paths as [|p0 paths IH]; intros w Hrun p Hp;
    [by apply elem_of_nil in Hp|].
  rewrite remove_each_cons in Hrun.
  destruct (os_remove p0 (fs w)) as [[[]|e] fs1] eqn:Hfirst; [|done].
  apply elem_of_cons in Hp as [->|Hp]; [|by eapply IH].
  pose proof (remove_each_creates_nothing paths (mkWorld fs1 (ui w)) p0
                (remove_removes _ _ _ Hfirst)) as Hgone.
  by rewrite Hrun in Hgone.
Qed.


Lemma cleanup_is_remove_each image_path paths w :
  cleanup image_path paths w = remove_each (image_path :: paths) w.
Proof. reflexivity. Qed.

(** X10.  When cleanup runs to its end, the temporary image and every path
    it was given are gone from the file system. *)
Theorem cleanup_removes_everything
    (contract : RemoveContract os rm) image_path element_paths w w' :
  cleanup image_path element_paths w = (Return tt, w') →
  os_path_exists image_path (fs w') = false
  ∧ (∀ path, path ∈ element_paths → os_path_exists path (fs w') = false)
  ∧ ui w' = ui w.
Proof.
  intros Hrun. rewrite cleanup_is_remove_each in Hrun.
  pose proof (remove_each_gone _ _ _ Hrun) as Hgone.
  pose proof (remove_each_ui (image_path :: element_paths) w) as Hui.
  rewrite Hrun in Hui. repeat split; [apply Hgone; left | | done].
  intros path Hpath. apply Hgone. by right.
Qed.



End more_on_main.

(** ** More about the test doubles *)

Lemma prefix_slash (b : string) :
  String.prefix "/" b = true → ∃ rest, b = String "/" rest.
Proof.
  destruct b as [|c rest]; [done|]. cbn [String.prefix].
  destruct (ascii_dec "/" c) as [<-|]; [by eexists | done].
Qed.

Lemma posix_join_output_elements (b : string) :
  Fake.posix_join "output_elements" b
  = if String.prefix "/" b then b else "output_elements/" +:+ b.
Proof. unfold Fake.posix_join. destruct (String.prefix "/" b); reflexivity. Qed.

(** In the directory [output_elements], [posixpath.join] keeps names apart. *)
Lemma posix_join_output_elements_inj (a b : string) :
  Fake.posix_join "output_elements" a = Fake.posix_join "output_elements" b → a = b.
Proof.
  rewrite !posix_join_output_elements.
  destruct (String.prefix "/" a) eqn:Ha, (String.prefix "/" b) eqn:Hb; [done | | |].
  - apply prefix_slash in Ha as [rest ->]. by rewrite string_app_cons.
  - apply prefix_slash in Hb as [rest ->]. by rewrite string_app_cons.
  - apply (inj (String.append "output_elements/")).
Qed.

Lemma picture_rectangular : rectangular Fake.picture.
Proof.
  intros row Hrow. unfold Fake.picture in Hrow.
  apply elem_of_replicate in Hrow as [-> _]. reflexivity.
Qed.

Lemma fake_lookup_delete_same path files :
  Fake.lookup_file path (FakeCleanup.delete_file path files) = None.
Proof.
  induction files as [|[q img] files IH]; [done|]. simpl.
  destruct (String.eqb path q) eqn:Heq; [done|]. simpl. by rewrite Heq.
Qed.

Lemma fake_lookup_delete_absent path other files :
  Fake.lookup_file other files = None →
  Fake.lookup_file other (FakeCleanup.delete_file path files) = None.
Proof.
  induction files as [|[q img] files IH]; [done|]. simpl.
  destruct (String.eqb other q) eqn:Hother; [done|]. intros Hrest.
  destruct (String.eqb path q); [by apply IH|]. simpl. rewrite Hother. by apply IH.
Qed.

Lemma fake_remove_contract : RemoveContract Fake.os FakeCleanup.os_remove.
Proof.
  split.
  - intros path d d1. simpl.
    destruct (bool_decide (path ∈ Fake.refused d)); [done|].
    destruct (bool_decide (path ∈ Fake.dirs d)) eqn:Hdir; [done|].
    destruct (Fake.lookup_file path (Fake.files d)); [|done].
    intros [= <-]. simpl. rewrite Hdir, fake_lookup_delete_same. done.
  - intros path d other. simpl.
    destruct (bool_decide (path ∈ Fake.refused d)); [done|].
    destruct (bool_decide (path ∈ Fake.dirs d)); [done|].
    destruct (Fake.lookup_file path (Fake.files d)); [|done]. simpl.
    destruct (bool_decide (other ∈ Fake.dirs d)); [done|]. simpl.
    rewrite !bool_decide_eq_false. intros Hnone Hsome. apply Hnone.
    destruct (Fake.lookup_file other (Fake.files d)) eqn:Hlook; [done|].
    rewrite fake_lookup_delete_absent in Hsome by done. by destruct Hsome.
Qed.

(** ** More concrete runs *)

Section more_runs.
#[local] Existing Instance Fake.two_regions.

Lemma segment_keeps_found_order_witness :
  ∃ gray retval binary found hierarchy,
    cv2_imread "temp_scan.png" (fs (Fake.start Fake.disk)) = Return (Some Fake.picture)
    ∧ cv2_cvtColor (Some Fake.picture) cv2.COLOR_BGR2GRAY = Return gray
    ∧ cv2_threshold gray 128 255 (cv2.THRESH_BINARY_INV + cv2.THRESH_OTSU)
      = Return (retval, binary)
    ∧ cv2_findContours binary cv2.RETR_EXTERNAL cv2.CHAIN_APPROX_SIMPLE
      = Return (found, hierarchy)
    ∧ [Fake.big] `sublist_of` found
    ∧ (length [Fake.big] ≤ length found)%nat.
Proof.
  apply (segment_keeps_found_order (cv := Fake.two_regions)
           "temp_scan.png" (Fake.start Fake.disk) (Some Fake.picture) [Fake.big]
           (Fake.start Fake.disk)).
  - vm_compute. reflexivity.
  - done.
Defined.

Lemma save_missing_image_writes_nothing_witness :
  ∃ notice,
    save_visual_elements None [Fake.big] "output_elements" (Fake.start Fake.disk)
    = (Return [],
       mkWorld (fs (ensure_dir "output_elements" (Fake.start Fake.disk)).2)
         (ui (Fake.start Fake.disk) ++ [UiError notice])).
Proof.
  apply (save_missing_image_writes_nothing (cv := Fake.two_regions) (os := Fake.os)
           [Fake.big] "output_elements" (Fake.start Fake.disk)).
  done.
Defined.

Lemma existing_output_dir_is_kept_witness :
  save_body (Some Fake.picture) [Fake.big] "output_elements"
    (Fake.start FakeCleanup.prepared_disk)
  = save_loop (Some Fake.picture) "output_elements" 0 [Fake.big] []
      (Fake.start FakeCleanup.prepared_disk)
  ∧ os_path_exists "output_elements"
      (fs (save_visual_elements (Some Fake.picture) [Fake.big] "output_elements"
             (Fake.start FakeCleanup.prepared_disk)).2) = true
  ∧ save_visual_elements (Some Fake.picture) [] "output_elements"
      (Fake.start FakeCleanup.prepared_disk)
    = (Return [], Fake.start FakeCleanup.prepared_disk).
Proof.
  apply (existing_output_dir_is_kept (cv := Fake.two_regions) (os := Fake.os)
           (fake_fs_contract [Fake.big; Fake.small])
           (Some Fake.picture) [Fake.big] "output_elements"
           (Fake.start FakeCleanup.prepared_disk)).
  reflexivity.
Defined.

Lemma element_names_differ_witness : element_name 9 ≠ element_name 10.
Proof. apply (element_names_differ 9 10). lia. Defined.

Lemma save_paths_distinct_witness :
  NoDup ["output_elements/element_0.png"; "output_elements/element_1.png"].
Proof.
  apply (save_paths_distinct (cv := Fake.two_regions) (os := Fake.os)
           (Some Fake.picture) [Fake.big; Fake.other] "output_elements"
           (Fake.start Fake.disk) _
           (save_visual_elements (Some Fake.picture) [Fake.big; Fake.other]
              "output_elements" (Fake.start Fake.disk)).2).
  - exact posix_join_output_elements_inj.
  - vm_compute. reflexivity.
Defined.

Lemma crop_is_the_box_witness :
  ∃ visual_element,
    crop (Some Fake.picture) 2 2 51 51 (Fake.start Fake.disk)
    = (Return visual_element, Fake.start Fake.disk)
    ∧ height visual_element = 51
    ∧ width visual_element = 51
    ∧ rectangular visual_element
    ∧ ∀ r c, 0 ≤ r < 51 → 0 ≤ c < 51 →
        pixel_at visual_element r c = pixel_at Fake.picture (2 + r) (2 + c).
Proof.
  apply (crop_is_the_box (FS := Fake.Disk)
           Fake.picture 2 2 51 51 (Fake.start Fake.disk)).
  - exact picture_rectangular.
  - lia.
  - lia.
  - lia.
  - lia.
  - by vm_compute.
  - by vm_compute.
Defined.

Lemma cleanup_removes_everything_witness :
  os_path_exists "temp_scan.png"
    (fs (cleanup "temp_scan.png" ["output_elements/element_0.png"]
           (Fake.start FakeCleanup.used_disk)).2) = false
  ∧ (∀ path, path ∈ ["output_elements/element_0.png"] →
       os_path_exists path
         (fs (cleanup "temp_scan.png" ["output_elements/element_0.png"]
                (Fake.start FakeCleanup.used_disk)).2) = false)
  ∧ ui (cleanup "temp_scan.png" ["output_elements/element_0.png"]
          (Fake.start FakeCleanup.used_disk)).2
    = ui (Fake.start FakeCleanup.used_disk).
Proof.
  apply (cleanup_removes_everything (os := Fake.os) (rm := FakeCleanup.os_remove)
           fake_remove_contract
           "temp_scan.png" ["output_elements/element_0.png"]
           (Fake.start FakeCleanup.used_disk)).
  vm_compute. reflexivity.
Defined.


End more_runs.

Section silent_writes_run.

Lemma save_ignores_imwrite_result_witness :
  @save_visual_elements _ (FakeCleanup.write_protected [Fake.big; Fake.other]) Fake.os
    (Some Fake.picture) [Fake.big; Fake.other] "output_elements"
    (Fake.start FakeCleanup.prepared_disk)
  = (Return ["output_elements/element_0.png"; "output_elements/element_1.png"],
     Fake.start FakeCleanup.prepared_disk).
Proof.
  apply (save_ignores_imwrite_result
           (cv := FakeCleanup.write_protected [Fake.big; Fake.other]) (os := Fake.os)
           Fake.picture [Fake.big; Fake.other] "output_elements"
           (Fake.start FakeCleanup.prepared_disk)).
  - intros path img d. reflexivity.
  - intros c _. eexists. reflexivity.
  - reflexivity.
Defined.

End silent_writes_run.

Section leak_run.
#[local] Existing Instance Fake.three_regions.


End leak_run.

(** ** Beyond the claims: what materialization tells the user *)

Section save_and_ui.
Context {FS : Type} {cv : Cv2 FS} {os : Os FS}.

Implicit Types (w : World FS) (image : option (ndarray Pixel)).

Lemma save_one_ui image output_dir i c w :
  ui (save_one image output_dir i c w).2 = ui w.
Proof.
  unfold save_one, mbind, M_bind, call.
  destruct (cv2_boundingRect c) as [[[[x y] bw] bh]|]; [|done].
  unfold crop. destruct image as [arr|]; [|done].
  unfold mret, M_ret, call_fs.
  by destruct (cv2_imwrite _ _ (fs w)) as [[b|] fs1].
Qed.

Lemma save_loop_ui image output_dir contours i acc w :
  ui (save_loop image output_dir i contours acc w).2 = ui w.
Proof.
  revert i acc w. induction contours as [|c contours IH]; intros i acc w; [done|].
  simpl. unfold mbind, M_bind.
  pose proof (save_one_ui image output_dir i c w) as Hone.
  destruct (save_one image output_dir i c w) as [[p|] w1]; [|done].
  simpl in Hone. by rewrite IH.
Qed.

Lemma save_body_ui image contours output_dir w :
  ui (save_body image contours output_dir w).2 = ui w.
Proof.
  unfold save_body, mbind, M_bind.
  pose proof (ensure_dir_ui output_dir w) as Hdir.
  destruct (ensure_dir output_dir w) as [[[]|] w1]; [|done].
  simpl in Hdir. by rewrite save_loop_ui.
Qed.

(** X13.  [save_visual_elements] tells the user of a failure exactly when
    there was one: if its body ran to the end the UI log is untouched and the
    paths are returned, and if its body raised, the log is one notice longer,
    carrying the text of the exception, and nothing is returned. *)
Theorem save_reports_exactly_its_failures image contours output_dir w :
  (∃ paths w',
     save_body image contours output_dir w = (Return paths, w')
     ∧ save_visual_elements image contours output_dir w = (Return paths, w')
     ∧ ui w' = ui w)
  ∨ (∃ e w',
       save_body image contours output_dir w = (Raise e, w')
       ∧ save_visual_elements image contours output_dir w
         = (Return [],
            mkWorld (fs w')
              (ui w ++ [UiError ("An error occurred while saving visual elements: "
                                 +:+ exn_str e)]))).
Proof.
  pose proof (save_body_ui image contours output_dir w) as Hui.
  destruct (save_body image contours output_dir w) as [[paths|e] w'] eqn:Hbody;
    simpl in Hui.
  - left. exists paths, w'. split; [done|]. split; [by apply save_ok | done].
  - right. exists e, w'. split; [done|].
    rewrite (save_failed _ _ _ _ _ _ Hbody). by rewrite Hui.
Qed.

End save_and_ui.
